(** * spendlens-ui: a shallow embedding of [main.py]

    The application is a Flask dashboard over two PostgreSQL tables.  The
    Python code is translated function by function; each SQL statement the
    code sends is kept twice, as the text the code concatenates and as the
    function on tables that PostgreSQL computes for it. *)

From Stdlib Require Import List ZArith NArith Lia Bool Ascii String QArith Qround.
From Stdlib Require Import Permutation Sorted.
Import ListNotations.
Local Open Scope Z_scope.

(** ** Python strings

    A Python [str] is a sequence of Unicode code points; [ord] is the
    identity on them.  ASCII literals of the source are written [py "..."]. *)

Definition pystr := list N.

Definition py (s : string) : pystr :=
  List.map N_of_ascii (list_ascii_of_string s).
Arguments py s%_string.

Fixpoint pystr_eqb (a b : pystr) : bool :=
  match a, b with
  | [], [] => true
  | x :: a', y :: b' => N.eqb x y && pystr_eqb a' b'
  | _, _ => false
  end.

(** [x in xs] for a list of strings. *)
Definition str_in (x : pystr) (xs : list pystr) : bool :=
  existsb (pystr_eqb x) xs.

(** Truth value of an optional string: [None] and the empty string are
    false. *)
Definition truthy (o : option pystr) : bool :=
  match o with
  | Some (_ :: _) => true
  | _ => false
  end.

(** [str.isspace] on one code point (the table of
    [_PyUnicode_IsWhitespace]). *)
Definition isspace (c : N) : bool :=
  ((9 <=? c) && (c <=? 13) || (28 <=? c) && (c <=? 32)
   || (c =? 133) || (c =? 160) || (c =? 5760)
   || (8192 <=? c) && (c <=? 8202)
   || (c =? 8232) || (c =? 8233) || (c =? 8239) || (c =? 8287)
   || (c =? 12288))%N.

Fixpoint lstrip (s : pystr) : pystr :=
  match s with
  | [] => []
  | c :: s' => if isspace c then lstrip s' else s
  end.

Definition rstrip (s : pystr) : pystr := rev (lstrip (rev s)).

(** [s.strip()] *)
Definition strip (s : pystr) : pystr := rstrip (lstrip s).

(** [s.split(sep)] for a one-character separator: never an empty list. *)
Fixpoint split (sep : N) (s : pystr) : list pystr :=
  match s with
  | [] => [[]]
  | c :: s' =>
      if N.eqb c sep then [] :: split sep s'
      else match split sep s' with
           | [] => [[c]]
           | p :: ps => (c :: p) :: ps
           end
  end.

Fixpoint str_join (sep : pystr) (xs : list pystr) : pystr :=
  match xs with
  | [] => []
  | [x] => x
  | x :: xs' => x ++ sep ++ str_join sep xs'
  end.

Fixpoint digits_of_uint (d : Decimal.uint) : pystr :=
  match d with
  | Decimal.Nil => []
  | Decimal.D0 d' => 48%N :: digits_of_uint d'
  | Decimal.D1 d' => 49%N :: digits_of_uint d'
  | Decimal.D2 d' => 50%N :: digits_of_uint d'
  | Decimal.D3 d' => 51%N :: digits_of_uint d'
  | Decimal.D4 d' => 52%N :: digits_of_uint d'
  | Decimal.D5 d' => 53%N :: digits_of_uint d'
  | Decimal.D6 d' => 54%N :: digits_of_uint d'
  | Decimal.D7 d' => 55%N :: digits_of_uint d'
  | Decimal.D8 d' => 56%N :: digits_of_uint d'
  | Decimal.D9 d' => 57%N :: digits_of_uint d'
  end.

(** [str(n)] for a length. *)
Definition str_of_nat (n : nat) : pystr := digits_of_uint (Nat.to_uint n).

(** ** The category colour (lines 22-35) *)

Definition colors : list pystr :=
  [ py "#FF6384"; py "#36A2EB"; py "#FFCE56"; py "#4BC0C0"; py "#9966FF";
    py "#FF9F40"; py "#8AC27A"; py "#E763B5"; py "#FFC107"; py "#663399" ].

(** One turn of the loop body:
    [hash_value = ord(char) + ((hash_value << 5) - hash_value)].
    Python integers are unbounded, so nothing wraps. *)
Definition hash_step (hash_value : Z) (char : N) : Z :=
  Z.of_N char + (Z.shiftl hash_value 5 - hash_value).

Definition hash_value_of (category : pystr) : Z :=
  fold_left hash_step category 0.

Definition get_category_color (category : pystr) : pystr :=
  let hash_value := hash_value_of category in
  let index := Z.abs hash_value mod Z.of_nat (List.length colors) in
  nth (Z.to_nat index) colors [].

(** The recurrence in the words of the specification, read from the last
    character backwards: [h_new = code(c) + ((h_old << 5) - h_old)], with
    [h = 0] before the first character. *)
Fixpoint rolling_hash_rev (rev_chars : list N) : Z :=
  match rev_chars with
  | [] => 0
  | c :: older =>
      let h_old := rolling_hash_rev older in
      Z.of_N c + (Z.shiftl h_old 5 - h_old)
  end.

Definition rolling_hash (category : pystr) : Z :=
  rolling_hash_rev (rev category).

(** ** The store

    Dates are calendar triples, so [EXTRACT(YEAR FROM d)] and
    [EXTRACT(MONTH FROM d)] are projections.  Amounts are NUMERIC in the
    store and [float] in Python; the model keeps them exact, as integers,
    and leaves binary rounding out.  [None] is SQL NULL. *)

Record Date := mkDate { year : Z; month : Z; day : Z }.

Definition date_eqb (a b : Date) : bool :=
  (year a =? year b) && (month a =? month b) && (day a =? day b).

Definition date_leb (a b : Date) : bool :=
  (year a <? year b)
  || (year a =? year b)
     && ((month a <? month b) || (month a =? month b) && (day a <=? day b)).

Record UnprocessedRecord := mkUnprocessed {
  u_id : Z;
  u_record_id_bank : pystr;
  u_transaction_date : Date;
  u_currency_date : Date;
  u_account : pystr;
  u_description : pystr;
  u_amount : option Z;
  u_currency : pystr
}.

Record ProcessedRecord := mkProcessed {
  record_id_bank : pystr;
  transaction_date : Date;
  currency_date : Date;
  account : pystr;
  description : pystr;
  amount : option Z;
  currency : pystr;
  category : option pystr
}.

(** A value bound to a [%s] of a statement. *)
Inductive Param :=
| PStr (s : pystr)
| PInt (z : Z)
| PList (l : list pystr).

(** A statement as the driver receives it: the text and its parameters. *)
Definition Statement : Type := pystr * list Param.

(** The world a request runs in: the two tables, the store's clock, a
    schedule of data-access faults and the statements received so far.
    Every call into the driver consumes one entry of the schedule; [Some e]
    makes that call raise an exception whose [str] is [e]. *)
Record Store := mkStore {
  unprocessed_records : list UnprocessedRecord;
  processed_records : list ProcessedRecord;
  current_date : Date;
  faults : list (option pystr);
  received : list Statement
}.

Definition with_faults (s : Store) (fs : list (option pystr)) : Store :=
  mkStore (unprocessed_records s) (processed_records s) (current_date s) fs
    (received s).

Definition with_processed (s : Store) (t : list ProcessedRecord) : Store :=
  mkStore (unprocessed_records s) t (current_date s) (faults s) (received s).

Definition with_received (s : Store) (stmt : Statement) : Store :=
  mkStore (unprocessed_records s) (processed_records s) (current_date s)
    (faults s) (received s ++ [stmt]).

(** ** Computations that may raise *)

Inductive Outcome (A : Type) : Type :=
| Return (a : A)
| Raise (e : pystr).
Arguments Return {A} a.
Arguments Raise {A} e.

Definition M (A : Type) : Type := Store -> Outcome A * Store.

Definition ret {A} (a : A) : M A := fun s => (Return a, s).

Definition raise {A} (e : pystr) : M A := fun s => (Raise e, s).

Definition bind {A B} (m : M A) (k : A -> M B) : M B :=
  fun s =>
    match m s with
    | (Return a, s') => k a s'
    | (Raise e, s') => (Raise e, s')
    end.

(** [try: body  except Exception as e: handler(e)] *)
Definition try_except {A} (body : M A) (handler : pystr -> M A) : M A :=
  fun s =>
    match body s with
    | (Return a, s') => (Return a, s')
    | (Raise e, s') => handler e s'
    end.

Definition lift {A} (o : Outcome A) : M A := fun s => (o, s).

Definition gets {A} (f : Store -> A) : M A := fun s => (Return (f s), s).

Declare Scope monad_scope.
Delimit Scope monad_scope with monad.
Notation "x <- c1 ;; c2" := (bind c1 (fun x => c2))
  (at level 61, c1 at next level, right associativity) : monad_scope.
Notation "c1 ;;; c2" := (bind c1 (fun _ => c2))
  (at level 61, right associativity) : monad_scope.
Local Open Scope monad_scope.

(** One call into the driver. *)
Definition data_access : M unit :=
  fun s =>
    match faults s with
    | [] => (Return tt, s)
    | None :: fs => (Return tt, with_faults s fs)
    | Some e :: fs => (Raise e, with_faults s fs)
    end.

(** The first fault among the next [n] driver calls, if any. *)
Fixpoint first_fault (n : nat) (fs : list (option pystr)) : option pystr :=
  match n, fs with
  | O, _ => None
  | S _, [] => None
  | S _, Some e :: _ => Some e
  | S n', None :: fs' => first_fault n' fs'
  end.

(** A psycopg2 connection runs one transaction: it works on its own view of
    [processed_records], which reaches the store at [conn.commit()] only. *)
Record Connection := mkConn { view : list ProcessedRecord }.

Definition get_db_connection : M Connection :=
  data_access ;;; t <- gets processed_records ;; ret (mkConn t).

Definition cursor (conn : Connection) : M unit := data_access.

(** [cursor.execute(query, params)]: one driver call that hands the
    statement over, then what the statement computes, which may itself
    fail. *)
Definition execute {R} (query : pystr) (params : list Param)
  (denotation : Outcome R) : M R :=
  data_access ;;;
  (fun s => (Return tt, with_received s (query, params))) ;;;
  lift denotation.

Definition fetchall {R} (result : R) : M R := data_access ;;; ret result.

Definition commit (conn : Connection) : M unit :=
  data_access ;;; (fun s => (Return tt, with_processed s (view conn))).

Definition close : M unit := data_access.

(** ** SQL building blocks *)

Section Relational.
Context {K R : Type}.
Variable key_eqb : K -> K -> bool.
Variable key : R -> K.

Fixpoint add_to_groups (r : R) (groups : list (K * list R))
  : list (K * list R) :=
  match groups with
  | [] => [(key r, [r])]
  | (k, rs) :: rest =>
      if key_eqb (key r) k then (k, rs ++ [r]) :: rest
      else (k, rs) :: add_to_groups r rest
  end.

(** [GROUP BY key]: one group per distinct key, NULL keys together. *)
Definition group_by (rows : list R) : list (K * list R) :=
  fold_left (fun groups r => add_to_groups r groups) rows [].

Variable before : R -> R -> bool.

Fixpoint insert_row (x : R) (sorted : list R) : list R :=
  match sorted with
  | [] => [x]
  | y :: rest => if before x y then x :: sorted else y :: insert_row x rest
  end.

(** [ORDER BY]: a stable sort. *)
Definition order_by (rows : list R) : list R :=
  fold_right insert_row [] rows.
End Relational.

(** [SUM(x)]: NULL summands are skipped, and no summand at all is NULL. *)
Definition sql_sum (xs : list (option Z)) : option Z :=
  fold_left
    (fun acc x =>
       match acc, x with
       | _, None => acc
       | None, Some v => Some v
       | Some a, Some v => Some (a + v)
       end) xs None.

(** [a DESC] puts NULL first, [a ASC] puts it last (PostgreSQL defaults). *)
Definition desc_before {A} (leb : A -> A -> bool) (a b : option A) : bool :=
  match a, b with
  | None, _ => true
  | Some _, None => false
  | Some x, Some y => leb y x
  end.

Definition asc_before {A} (leb : A -> A -> bool) (a b : option A) : bool :=
  match a, b with
  | _, None => true
  | None, Some _ => false
  | Some x, Some y => leb x y
  end.

Definition option_eqb {A} (eqb : A -> A -> bool) (a b : option A) : bool :=
  match a, b with
  | None, None => true
  | Some x, Some y => eqb x y
  | _, _ => false
  end.

(** [xs[off : off + n]] for [off, n >= 0], and [LIMIT n OFFSET off]. *)
Definition slice {A} (xs : list A) (off n : Z) : list A :=
  firstn (Z.to_nat n) (skipn (Z.to_nat off) xs).

(** ** Request parameters *)

Definition Args := list (pystr * pystr).

(** [request.args.get(key)]: the first value of the key, or [None]. *)
Fixpoint args_get (args : Args) (key : pystr) : option pystr :=
  match args with
  | [] => None
  | (k, v) :: rest => if pystr_eqb k key then Some v else args_get rest key
  end.

Definition args_get_default (args : Args) (key default : pystr) : pystr :=
  match args_get args key with
  | Some v => v
  | None => default
  end.

(** What a view function returns. *)
Inductive View (C : Type) : Type :=
| Rendered (template : pystr) (context : C)
| Plain (body : pystr) (status : Z).
Arguments Rendered {C} template context.
Arguments Plain {C} body status.

(** [(total_count + per_page - 1) // per_page], lines 267, 271, 325, 428. *)
Definition total_pages_of (total_count per_page : Z) : Z :=
  (total_count + per_page - 1) / per_page.

(** ** The application

    What belongs to Python and PostgreSQL rather than to the repository is
    taken as given: [py_int] is [int] on a string ([None] for ValueError),
    [date_in] reads a date literal ([None] when PostgreSQL rejects it),
    [iso_week] is [EXTRACT(WEEK FROM d)], [ilike] is [text ILIKE pattern]
    and [text_leb] is the collation order of text columns. *)

Section App.

Variable py_int : pystr -> option Z.
Variable date_in : pystr -> option Date.
Variable iso_week : Date -> Z.
Variable ilike : pystr -> pystr -> bool.
Variable text_leb : pystr -> pystr -> bool.

(** [request.args.get(key, default, type=int)]: the default when the key is
    missing or the conversion fails. *)
Definition args_get_int (args : Args) (key : pystr) (default : Z) : Z :=
  match args_get args key with
  | None => default
  | Some v =>
      match py_int v with
      | Some z => z
      | None => default
      end
  end.

(** *** get_monthly_yearly_balances (lines 50-137) *)

(** [CASE WHEN SUM(amount) > 0 ... WHEN SUM(amount) < 0 ... ELSE 'zero'];
    a NULL sum satisfies neither comparison. *)
Definition balance_status (total : option Z) : pystr :=
  match total with
  | Some t =>
      if 0 <? t then py "positive"
      else if t <? 0 then py "negative"
      else py "zero"
  | None => py "zero"
  end.

(** Lines 57-70 and 76-88; the line breaks of the literals are written as
    spaces. *)
Definition monthly_query_sql : pystr :=
  py "SELECT EXTRACT(YEAR FROM transaction_date) as year, EXTRACT(MONTH FROM transaction_date) as month, SUM(amount) as total_amount, CASE WHEN SUM(amount) > 0 THEN 'positive' WHEN SUM(amount) < 0 THEN 'negative' ELSE 'zero' END as balance_status FROM processed_records GROUP BY EXTRACT(YEAR FROM transaction_date), EXTRACT(MONTH FROM transaction_date) ORDER BY year DESC, month DESC".

Definition yearly_query_sql : pystr :=
  py "SELECT EXTRACT(YEAR FROM transaction_date) as year, SUM(amount) as total_amount, CASE WHEN SUM(amount) > 0 THEN 'positive' WHEN SUM(amount) < 0 THEN 'negative' ELSE 'zero' END as balance_status FROM processed_records GROUP BY EXTRACT(YEAR FROM transaction_date) ORDER BY year DESC".

Definition monthly_query (table : list ProcessedRecord)
  : list (Z * Z * option Z * pystr) :=
  let groups :=
    group_by (fun a b : Z * Z => (fst a =? fst b) && (snd a =? snd b))
      (fun r => (year (transaction_date r), month (transaction_date r)))
      table in
  let rows :=
    List.map
      (fun g : Z * Z * list ProcessedRecord =>
         let total := sql_sum (List.map amount (snd g)) in
         (fst (fst g), snd (fst g), total, balance_status total))
      groups in
  order_by
    (fun a b : Z * Z * option Z * pystr =>
       let '(ya, ma, _, _) := a in
       let '(yb, mb, _, _) := b in
       (yb <? ya) || (ya =? yb) && (mb <=? ma))
    rows.

Definition yearly_query (table : list ProcessedRecord)
  : list (Z * option Z * pystr) :=
  let groups :=
    group_by Z.eqb (fun r => year (transaction_date r)) table in
  let rows :=
    List.map
      (fun g : Z * list ProcessedRecord =>
         let total := sql_sum (List.map amount (snd g)) in
         (fst g, total, balance_status total))
      groups in
  order_by
    (fun a b : Z * option Z * pystr => fst (fst b) <=? fst (fst a))
    rows.

Record MonthlyBalance := mkMonthly {
  mb_year : Z;
  mb_month : Z;
  mb_month_name : pystr;
  mb_amount : Z;
  mb_status : pystr
}.

Record YearlyBalance := mkYearly {
  yb_year : Z;
  yb_amount : Z;
  yb_status : pystr
}.

Definition month_names : list pystr :=
  [ py "January"; py "February"; py "March"; py "April"; py "May";
    py "June"; py "July"; py "August"; py "September"; py "October";
    py "November"; py "December" ].

(** [float(x) if x is not None else 0.0] *)
Definition float_or_zero (x : option Z) : Z :=
  match x with
  | Some v => v
  | None => 0
  end.

Definition format_monthly (record : Z * Z * option Z * pystr)
  : MonthlyBalance :=
  let '(year, month, total, status) := record in
  let month_name :=
    if (1 <=? month) && (month <=? 12)
    then nth (Z.to_nat (month - 1)) month_names []
    else py "Unknown" in
  mkMonthly year month month_name (float_or_zero total) status.

Definition format_yearly (record : Z * option Z * pystr) : YearlyBalance :=
  let '(year, total, status) := record in
  mkYearly year (float_or_zero total) status.

(** The [try] block, lines 53-130. *)
Definition get_monthly_yearly_balances_try
  : M (list MonthlyBalance * list YearlyBalance) :=
  conn <- get_db_connection ;;
  cursor conn ;;;
  monthly_result <- execute monthly_query_sql []
                      (Return (monthly_query (view conn))) ;;
  monthly_balances <- fetchall monthly_result ;;
  yearly_result <- execute yearly_query_sql []
                     (Return (yearly_query (view conn))) ;;
  yearly_balances <- fetchall yearly_result ;;
  let formatted_monthly := List.map format_monthly monthly_balances in
  let formatted_yearly := List.map format_yearly yearly_balances in
  close ;;;
  close ;;;
  ret (formatted_monthly, formatted_yearly).

Definition get_monthly_yearly_balances
  : M (list MonthlyBalance * list YearlyBalance) :=
  try_except get_monthly_yearly_balances_try (fun e => ret ([], [])).

(** *** get_spending_data (lines 139-230) *)

(** The six texts [date_filter] can hold. *)
Inductive DateFilter :=
| CustomRange | ThisDay | ThisWeek | ThisMonth | ThisYear | AllRecords.

Definition date_filter_sql (f : DateFilter) : pystr :=
  match f with
  | CustomRange => py "transaction_date >= %s AND transaction_date <= %s"
  | ThisDay => py "DATE(transaction_date) = CURRENT_DATE"
  | ThisWeek =>
      py "EXTRACT(YEAR FROM transaction_date) = EXTRACT(YEAR FROM CURRENT_DATE) AND EXTRACT(WEEK FROM transaction_date) = EXTRACT(WEEK FROM CURRENT_DATE)"
  | ThisMonth =>
      py "EXTRACT(YEAR FROM transaction_date) = EXTRACT(YEAR FROM CURRENT_DATE) AND EXTRACT(MONTH FROM transaction_date) = EXTRACT(MONTH FROM CURRENT_DATE)"
  | ThisYear =>
      py "EXTRACT(YEAR FROM transaction_date) = EXTRACT(YEAR FROM CURRENT_DATE)"
  | AllRecords => py "1=1"
  end.

(** Lines 148-168: the date filter and its parameters. *)
Definition build_date_filter (time_period : pystr)
  (start_date end_date : option pystr) : DateFilter * list Param :=
  match start_date, end_date with
  | Some (c :: s), Some (d :: e) => (CustomRange, [PStr (c :: s); PStr (d :: e)])
  | _, _ =>
      if pystr_eqb time_period (py "day") then (ThisDay, [])
      else if pystr_eqb time_period (py "week") then (ThisWeek, [])
      else if pystr_eqb time_period (py "month") then (ThisMonth, [])
      else if pystr_eqb time_period (py "year") then (ThisYear, [])
      else (AllRecords, [])
  end.

(** Lines 171-175: the WHERE clause, as the date filter and whether
    [AND category = %s] follows it. *)
Definition build_where (time_period : pystr)
  (category_filter start_date end_date : option pystr)
  : DateFilter * bool * list Param :=
  let '(date_filter, params) :=
    build_date_filter time_period start_date end_date in
  match category_filter with
  | Some (c :: s) => (date_filter, true, params ++ [PStr (c :: s)])
  | _ => (date_filter, false, params)
  end.

Definition where_clause_sql (date_filter : DateFilter) (with_category : bool)
  : pystr :=
  if with_category
  then py "WHERE " ++ date_filter_sql date_filter ++ py " AND category = %s"
  else py "WHERE " ++ date_filter_sql date_filter.

(** Lines 177-185; the line breaks of the literal are written as spaces. *)
Definition spending_query_sql (date_filter : DateFilter)
  (with_category : bool) : pystr :=
  py "SELECT COALESCE(category, 'Uncategorized') as category, SUM(amount) as total_amount FROM processed_records "
  ++ where_clause_sql date_filter with_category
  ++ py " GROUP BY category ORDER BY total_amount DESC".

(** The date condition on a row, its [%s] filled from [params]; the rest of
    [params] is handed on.  [None]: the statement is rejected. *)
Definition date_filter_holds (f : DateFilter) (params : list Param)
  (today : Date) : option ((ProcessedRecord -> bool) * list Param) :=
  match f with
  | CustomRange =>
      match params with
      | PStr s :: PStr e :: rest =>
          match date_in s, date_in e with
          | Some lo, Some hi =>
              Some (fun r => date_leb lo (transaction_date r)
                             && date_leb (transaction_date r) hi, rest)
          | _, _ => None
          end
      | _ => None
      end
  | ThisDay => Some (fun r => date_eqb (transaction_date r) today, params)
  | ThisWeek =>
      Some (fun r => (year (transaction_date r) =? year today)
                     && (iso_week (transaction_date r) =? iso_week today),
            params)
  | ThisMonth =>
      Some (fun r => (year (transaction_date r) =? year today)
                     && (month (transaction_date r) =? month today), params)
  | ThisYear =>
      Some (fun r => year (transaction_date r) =? year today, params)
  | AllRecords => Some (fun _ => true, params)
  end.

(** [category = %s]: never true of a NULL category. *)
Definition category_is (c : pystr) (r : ProcessedRecord) : bool :=
  match category r with
  | Some c' => pystr_eqb c' c
  | None => false
  end.

Definition spending_where (f : DateFilter) (with_category : bool)
  (params : list Param) (today : Date) : option (ProcessedRecord -> bool) :=
  match date_filter_holds f params today, with_category with
  | Some (in_window, [PStr c]), true =>
      Some (fun r => in_window r && category_is c r)
  | Some (in_window, []), false => Some in_window
  | _, _ => None
  end.

(** [COALESCE(category, 'Uncategorized')] *)
Definition coalesce_category (c : option pystr) : pystr :=
  match c with
  | Some c' => c'
  | None => py "Uncategorized"
  end.

(** The statement of lines 177-185 on a table.  In [GROUP BY category] the
    name [category] is both a column of [processed_records] and the alias
    of the first output column; PostgreSQL reads a GROUP BY name as the
    input column in that case, so the groups are those of the stored
    category and [COALESCE] is applied to each group's key afterwards. *)
Definition spending_query (f : DateFilter) (with_category : bool)
  (params : list Param) (today : Date) (table : list ProcessedRecord)
  : Outcome (list (option pystr * option Z)) :=
  match spending_where f with_category params today with
  | None => Raise (py "statement rejected by the store")
  | Some keep =>
      let groups :=
        group_by (option_eqb pystr_eqb) category (filter keep table) in
      let rows :=
        List.map
          (fun g : option pystr * list ProcessedRecord =>
             (Some (coalesce_category (fst g)),
              sql_sum (List.map amount (snd g))))
          groups in
      Return
        (order_by
           (fun a b : option pystr * option Z =>
              desc_before Z.leb (snd a) (snd b))
           rows)
  end.

Record SpendingItem := mkItem { item_category : pystr; item_amount : Z }.

(** Lines 201-215: the formatting loop. *)
Definition format_spending (records : list (option pystr * option Z))
  : list SpendingItem * Z :=
  fold_left
    (fun (acc : list SpendingItem * Z) (record : option pystr * option Z) =>
       let '(spending_data, total_spending) := acc in
       let category :=
         match fst record with
         | Some c => c
         | None => py "Uncategorized"
         end in
       let amount := float_or_zero (snd record) in
       (spending_data ++ [mkItem category amount], total_spending + amount))
    records ([], 0).

(** The [try] block, lines 192-223. *)
Definition get_spending_data_try (time_period : pystr)
  (category_filter start_date end_date : option pystr)
  : M (list SpendingItem * Z) :=
  let '(date_filter, with_category, params) :=
    build_where time_period category_filter start_date end_date in
  conn <- get_db_connection ;;
  cursor conn ;;;
  today <- gets current_date ;;
  result <- execute (spending_query_sql date_filter with_category) params
              (spending_query date_filter with_category params today
                 (view conn)) ;;
  records <- fetchall result ;;
  let '(spending_data, total_spending) := format_spending records in
  close ;;;
  close ;;;
  ret (spending_data, total_spending).

Definition get_spending_data (time_period : pystr)
  (category_filter start_date end_date : option pystr)
  : M (list SpendingItem * Z) :=
  try_except
    (get_spending_data_try time_period category_filter start_date end_date)
    (fun e => ret ([], 0)).

(** *** index (lines 232-286) *)

Record IndexContext := mkIndexContext {
  ix_spending_data : list SpendingItem;
  ix_total_spending : Z;
  ix_time_period : pystr;
  ix_category_filter : option pystr;
  ix_start_date : option pystr;
  ix_end_date : option pystr;
  ix_monthly_balances : list MonthlyBalance;
  ix_yearly_balances : list YearlyBalance;
  ix_monthly_total_pages : Z;
  ix_yearly_total_pages : Z;
  ix_monthly_page : Z;
  ix_yearly_page : Z;
  ix_per_page : Z
}.

(** Lines 249-263: the two page numbers, the page size and the two
    offsets. *)
Definition index_pagination (args : Args) : Z * Z * Z * Z * Z :=
  let monthly_page := args_get_int args (py "monthly_page") 1 in
  let yearly_page := args_get_int args (py "yearly_page") 1 in
  let per_page := args_get_int args (py "per_page") 10 in
  let monthly_page := if monthly_page <? 1 then 1 else monthly_page in
  let yearly_page := if yearly_page <? 1 then 1 else yearly_page in
  let per_page :=
    if (per_page <? 1) || (100 <? per_page) then 10 else per_page in
  let monthly_offset := (monthly_page - 1) * per_page in
  let yearly_offset := (yearly_page - 1) * per_page in
  (monthly_page, yearly_page, per_page, monthly_offset, yearly_offset).

Definition index (args : Args) : M (View IndexContext) :=
  let time_period := args_get_default args (py "time_period") (py "month") in
  let category_filter := args_get args (py "category") in
  let start_date := args_get args (py "start_date") in
  let end_date := args_get args (py "end_date") in
  spending <- get_spending_data time_period category_filter
                start_date end_date ;;
  balances <- get_monthly_yearly_balances ;;
  let '(spending_data, total_spending) := spending in
  let '(monthly_balances, yearly_balances) := balances in
  let '(monthly_page, yearly_page, per_page, monthly_offset, yearly_offset) :=
    index_pagination args in
  let paginated_monthly := slice monthly_balances monthly_offset per_page in
  let monthly_total_pages :=
    total_pages_of (Z.of_nat (List.length monthly_balances)) per_page in
  let paginated_yearly := slice yearly_balances yearly_offset per_page in
  let yearly_total_pages :=
    total_pages_of (Z.of_nat (List.length yearly_balances)) per_page in
  ret (Rendered (py "index.html")
         (mkIndexContext spending_data total_spending time_period
            category_filter start_date end_date
            paginated_monthly paginated_yearly
            monthly_total_pages yearly_total_pages
            monthly_page yearly_page per_page)).

(** *** Pagination of the two listings (lines 291-301 and 348-374) *)

Definition page_pagination (args : Args) : Z * Z * Z :=
  let page := args_get_int args (py "page") 1 in
  let per_page := args_get_int args (py "per_page") 10 in
  let page := if page <? 1 then 1 else page in
  let per_page :=
    if (per_page <? 1) || (100 <? per_page) then 10 else per_page in
  let offset := (page - 1) * per_page in
  (page, per_page, offset).

(** [LIMIT %s OFFSET %s] with the last two parameters: both are bigint and
    neither may be negative. *)
Definition limit_offset {R} (params : list Param) (rows : list R)
  : option (list R) :=
  match params with
  | [PInt limit; PInt offset] =>
      if (0 <=? limit) && (limit <? 2 ^ 63)
         && (0 <=? offset) && (offset <? 2 ^ 63)
      then Some (slice rows offset limit)
      else None
  | _ => None
  end.

(** *** admin (lines 288-343) *)

Record AdminContext := mkAdminContext {
  ad_records : list UnprocessedRecord;
  ad_page : Z;
  ad_per_page : Z;
  ad_total_pages : Z;
  ad_total_count : Z
}.

(** Lines 309-314 and 320. *)
Definition admin_query_sql : pystr :=
  py "SELECT id, record_id_bank, transaction_date, currency_date, account, description, amount, currency FROM unprocessed_records ORDER BY transaction_date DESC LIMIT %s OFFSET %s".

Definition admin_count_query_sql : pystr :=
  py "SELECT COUNT(*) FROM unprocessed_records".

Definition admin_query (params : list Param) (table : list UnprocessedRecord)
  : Outcome (list UnprocessedRecord) :=
  let sorted :=
    order_by (fun a b => date_leb (u_transaction_date b) (u_transaction_date a))
      table in
  match limit_offset params sorted with
  | Some rows => Return rows
  | None => Raise (py "statement rejected by the store")
  end.

Definition admin (args : Args) : M (View AdminContext) :=
  let '(page, per_page, offset) := page_pagination args in
  try_except
    (conn <- get_db_connection ;;
     cursor conn ;;;
     table <- gets unprocessed_records ;;
     let params := [PInt per_page; PInt offset] in
     result <- execute admin_query_sql params (admin_query params table) ;;
     records <- fetchall result ;;
     count <- execute admin_count_query_sql []
                (Return (Z.of_nat (List.length table))) ;;
     total_count <- fetchall count ;;
     let total_pages := total_pages_of total_count per_page in
     close ;;;
     close ;;;
     ret (Rendered (py "admin.html")
            (mkAdminContext records page per_page total_pages total_count)))
    (fun e => ret (Plain (py "Error fetching records: " ++ e) 500)).

(** *** record_transformer (lines 345-456) *)

Definition valid_sort_fields : list pystr :=
  [ py "record_id_bank"; py "transaction_date"; py "currency_date";
    py "account"; py "description"; py "amount"; py "currency";
    py "category" ].

(** Lines 356-371: the sort column and direction that reach the query. *)
Definition sort_parameters (args : Args) : pystr * pystr :=
  let sort_by :=
    args_get_default args (py "sort_by") (py "transaction_date") in
  let sort_order := args_get_default args (py "sort_order") (py "desc") in
  let sort_by :=
    if negb (str_in sort_by valid_sort_fields)
    then py "transaction_date" else sort_by in
  let sort_order :=
    if negb (str_in sort_order [py "asc"; py "desc"])
    then py "desc" else sort_order in
  (sort_by, sort_order).

(** The two clauses [where_clauses] can hold. *)
Inductive Clause := CategoryEquals | DescriptionILike.

Definition clause_sql (c : Clause) : pystr :=
  match c with
  | CategoryEquals => py "category = %s"
  | DescriptionILike => py "description ILIKE %s"
  end.

Definition clause_holds (c : Clause) (value : pystr) (r : ProcessedRecord)
  : bool :=
  match c with
  | CategoryEquals => category_is value r
  | DescriptionILike => ilike (description r) value
  end.

(** Lines 393-404: [where_clauses] and [params] before the sort is added. *)
Definition build_filters (category_filter search_description : option pystr)
  : list Clause * list Param :=
  let where_clauses := [] in
  let params := [] in
  let '(where_clauses, params) :=
    match category_filter with
    | Some (c :: s) =>
        (where_clauses ++ [CategoryEquals], params ++ [PStr (c :: s)])
    | _ => (where_clauses, params)
    end in
  match search_description with
  | Some (c :: s) =>
      (where_clauses ++ [DescriptionILike],
       params ++ [PStr (py "%" ++ (c :: s) ++ py "%")])
  | _ => (where_clauses, params)
  end.

(** [" WHERE " + " AND ".join(where_clauses)], or nothing. *)
Definition where_sql (where_clauses : list Clause) : pystr :=
  match where_clauses with
  | [] => []
  | _ => py " WHERE " ++ str_join (py " AND ") (List.map clause_sql where_clauses)
  end.

(** Lines 388-411; the line breaks of the literal are written as spaces. *)
Definition base_query_sql (where_clauses : list Clause)
  (sort_by sort_order : pystr) : pystr :=
  py "SELECT record_id_bank, transaction_date, currency_date, account, description, amount, currency, category FROM processed_records "
  ++ where_sql where_clauses
  ++ py " ORDER BY " ++ sort_by ++ py " " ++ sort_order
  ++ py " LIMIT %s OFFSET %s".

(** Lines 418-422. *)
Definition count_query_sql (where_clauses : list Clause) : pystr :=
  py "SELECT COUNT(*) FROM processed_records" ++ where_sql where_clauses.

(** Line 424: [params[:-2] if where_clauses else ()]. *)
Definition count_params (where_clauses : list Clause) (params : list Param)
  : list Param :=
  match where_clauses with
  | [] => []
  | _ => firstn (List.length params - 2) params
  end.

(** The clauses joined by AND, each [%s] filled from [params] in order; the
    rest of [params] is handed on. *)
Fixpoint where_holds (where_clauses : list Clause) (params : list Param)
  : option ((ProcessedRecord -> bool) * list Param) :=
  match where_clauses with
  | [] => Some (fun _ => true, params)
  | c :: cs =>
      match params with
      | PStr v :: rest =>
          match where_holds cs rest with
          | Some (holds, rest') =>
              Some (fun r => clause_holds c v r && holds r, rest')
          | None => None
          end
      | _ => None
      end
  end.

(** [ORDER BY sort_by sort_order] on the columns of [processed_records];
    [None] for a text that names no column or no direction. *)
Definition sort_before (sort_by sort_order : pystr)
  : option (ProcessedRecord -> ProcessedRecord -> bool) :=
  let directed {A} (leb : A -> A -> bool) (col : ProcessedRecord -> option A) :=
    if pystr_eqb sort_order (py "asc")
    then Some (fun a b => asc_before leb (col a) (col b))
    else if pystr_eqb sort_order (py "desc")
    then Some (fun a b => desc_before leb (col a) (col b))
    else None in
  if pystr_eqb sort_by (py "record_id_bank")
  then directed text_leb (fun r => Some (record_id_bank r))
  else if pystr_eqb sort_by (py "transaction_date")
  then directed date_leb (fun r => Some (transaction_date r))
  else if pystr_eqb sort_by (py "currency_date")
  then directed date_leb (fun r => Some (currency_date r))
  else if pystr_eqb sort_by (py "account")
  then directed text_leb (fun r => Some (account r))
  else if pystr_eqb sort_by (py "description")
  then directed text_leb (fun r => Some (description r))
  else if pystr_eqb sort_by (py "amount")
  then directed Z.leb amount
  else if pystr_eqb sort_by (py "currency")
  then directed text_leb (fun r => Some (currency r))
  else if pystr_eqb sort_by (py "category")
  then directed text_leb category
  else None.

(** The row-fetch statement on a table. *)
Definition base_query (where_clauses : list Clause)
  (sort_by sort_order : pystr) (params : list Param)
  (table : list ProcessedRecord) : Outcome (list ProcessedRecord) :=
  match where_holds where_clauses params, sort_before sort_by sort_order with
  | Some (holds, rest), Some before =>
      match limit_offset rest (order_by before (filter holds table)) with
      | Some rows => Return rows
      | None => Raise (py "statement rejected by the store")
      end
  | _, _ => Raise (py "statement rejected by the store")
  end.

(** The count statement on a table. *)
Definition count_query (where_clauses : list Clause) (params : list Param)
  (table : list ProcessedRecord) : Outcome Z :=
  match where_holds where_clauses params with
  | Some (holds, []) => Return (Z.of_nat (List.length (filter holds table)))
  | _ => Raise (py "statement rejected by the store")
  end.

(** Line 383. *)
Definition category_query_sql : pystr :=
  py "SELECT DISTINCT category FROM processed_records WHERE category IS NOT NULL ORDER BY category".

Definition category_query (table : list ProcessedRecord) : list pystr :=
  let present :=
    flat_map
      (fun r => match category r with Some c => [c] | None => [] end)
      table in
  order_by text_leb
    (List.map fst (group_by pystr_eqb (fun c : pystr => c) present)).

Record TransformerContext := mkTransformerContext {
  rt_records : list ProcessedRecord;
  rt_page : Z;
  rt_per_page : Z;
  rt_total_pages : Z;
  rt_total_count : Z;
  rt_categories : list pystr;
  rt_category_filter : option pystr;
  rt_search_description : option pystr;
  rt_sort_by : pystr;
  rt_sort_order : pystr
}.

Definition record_transformer (args : Args) : M (View TransformerContext) :=
  let category_filter := args_get args (py "category") in
  let search_description := args_get args (py "search") in
  let '(page, per_page, offset) := page_pagination args in
  let '(sort_by, sort_order) := sort_parameters args in
  try_except
    (conn <- get_db_connection ;;
     cursor conn ;;;
     category_result <- execute category_query_sql []
                          (Return (category_query (view conn))) ;;
     categories <- fetchall category_result ;;
     let '(where_clauses, params) :=
       build_filters category_filter search_description in
     let params := params ++ [PInt per_page; PInt offset] in
     result <- execute (base_query_sql where_clauses sort_by sort_order)
                 params
                 (base_query where_clauses sort_by sort_order params
                    (view conn)) ;;
     records <- fetchall result ;;
     let params_of_count := count_params where_clauses params in
     count <- execute (count_query_sql where_clauses) params_of_count
                (count_query where_clauses params_of_count (view conn)) ;;
     total_count <- fetchall count ;;
     let total_pages := total_pages_of total_count per_page in
     close ;;;
     close ;;;
     ret (Rendered (py "record_transformer.html")
            (mkTransformerContext records page per_page total_pages
               total_count categories category_filter search_description
               sort_by sort_order)))
    (fun e => ret (Plain (py "Error fetching records: " ++ e) 500)).

(** *** update_categories and delete_records (lines 458-542) *)

(** [[id.strip() for id in record_ids_str.split(',') if id.strip()]] *)
Definition parse_record_ids (record_ids_str : pystr) : list pystr :=
  List.map strip
    (filter (fun id => match strip id with [] => false | _ => true end)
       (split 44 record_ids_str)).

Definition set_category (c : pystr) (r : ProcessedRecord) : ProcessedRecord :=
  mkProcessed (record_id_bank r) (transaction_date r) (currency_date r)
    (account r) (description r) (amount r) (currency r) (Some c).

(** Lines 479-483 and 522-525; the line breaks of the literals are written
    as spaces. *)
Definition update_query_sql : pystr :=
  py "UPDATE processed_records SET category = %s WHERE record_id_bank = ANY(%s)".

Definition delete_query_sql : pystr :=
  py "DELETE FROM processed_records WHERE record_id_bank = ANY(%s)".

(** The UPDATE statement on the connection's view. *)
Definition update_query (params : list Param) (conn : Connection)
  : Outcome Connection :=
  match params with
  | [PStr new_category; PList record_ids] =>
      Return
        (mkConn
           (List.map
              (fun r =>
                 if str_in (record_id_bank r) record_ids
                 then set_category new_category r else r)
              (view conn)))
  | _ => Raise (py "statement rejected by the store")
  end.

(** The DELETE statement on the connection's view. *)
Definition delete_query (params : list Param) (conn : Connection)
  : Outcome Connection :=
  match params with
  | [PList record_ids] =>
      Return
        (mkConn
           (filter (fun r => negb (str_in (record_id_bank r) record_ids))
              (view conn)))
  | _ => Raise (py "statement rejected by the store")
  end.

Definition update_categories (form : Args) : M (pystr * Z) :=
  try_except
    (let record_ids_str := args_get form (py "record_ids") in
     let new_category := args_get form (py "new_category") in
     match record_ids_str, new_category with
     | Some (c :: s), Some (d :: t) =>
         let record_ids_str := c :: s in
         let new_category := d :: t in
         let record_ids := parse_record_ids record_ids_str in
         match record_ids with
         | [] => ret (py "No valid record IDs provided", 400)
         | _ :: _ =>
             conn <- get_db_connection ;;
             cursor conn ;;;
             let params := [PStr new_category; PList record_ids] in
             conn <- execute update_query_sql params
                       (update_query params conn) ;;
             commit conn ;;;
             close ;;;
             close ;;;
             ret (py "Successfully updated "
                  ++ str_of_nat (List.length record_ids)
                  ++ py " records to category '" ++ new_category ++ py "'",
                  200)
         end
     | _, _ => ret (py "Missing record IDs or category", 400)
     end)
    (fun e => ret (py "Error updating categories: " ++ e, 500)).

Definition delete_records (form : Args) : M (pystr * Z) :=
  try_except
    (let record_ids_str := args_get form (py "record_ids") in
     match record_ids_str with
     | Some (c :: s) =>
         let record_ids_str := c :: s in
         let record_ids := parse_record_ids record_ids_str in
         match record_ids with
         | [] => ret (py "No valid record IDs provided", 400)
         | _ :: _ =>
             conn <- get_db_connection ;;
             cursor conn ;;;
             let params := [PList record_ids] in
             conn <- execute delete_query_sql params
                       (delete_query params conn) ;;
             commit conn ;;;
             close ;;;
             close ;;;
             ret (py "Successfully deleted "
                  ++ str_of_nat (List.length record_ids) ++ py " records",
                  200)
         end
     | _ => ret (py "Missing record IDs", 400)
     end)
    (fun e => ret (py "Error deleting records: " ++ e, 500)).

(** ** Definitions used to state the properties *)

(** The ceiling of [total_count / per_page] as a rational number. *)
Definition ceil_ratio (total_count per_page : Z) : Z :=
  Qceiling (inject_Z total_count / inject_Z per_page).

(** No driver call fails. *)
Definition no_fault_at (f : option pystr) : bool :=
  match f with
  | None => true
  | Some _ => false
  end.

Definition fault_free (s : Store) : Prop :=
  forallb no_fault_at (faults s) = true.

(** How a request parameter read with [type=int] arrives. *)
Inductive RawInt :=
| Missing
| NotNumeric
| Numeric (z : Z).

Definition raw_int (args : Args) (key : pystr) : RawInt :=
  match args_get args key with
  | None => Missing
  | Some v =>
      match py_int v with
      | None => NotNumeric
      | Some z => Numeric z
      end
  end.

(** A page size the handlers do not accept as it is. *)
Definition invalid_per_page (raw : RawInt) : Prop :=
  match raw with
  | Missing => False
  | NotNumeric => True
  | Numeric z => z <= 0 \/ 100 < z
  end.

(** Neither the first nor the last character is whitespace. *)
Definition trimmed (s : pystr) : Prop :=
  (forall c, hd_error s = Some c -> isspace c = false)
  /\ (forall c, hd_error (rev s) = Some c -> isspace c = false).

(** [wp m Q s]: running [m] from [s] ends in an outcome and a store that
    satisfy [Q]. *)
Definition wp {A} (m : M A) (Q : Outcome A -> Store -> Prop) (s : Store)
  : Prop :=
  Q (fst (m s)) (snd (m s)).

(** The statements of one [record_transformer] request, in the order they
    are sent. *)
Definition transformer_statements (args : Args) : list Statement :=
  let '(page, per_page, offset) := page_pagination args in
  let '(sort_by, sort_order) := sort_parameters args in
  let '(where_clauses, params) :=
    build_filters (args_get args (py "category"))
      (args_get args (py "search")) in
  [ (category_query_sql, []);
    (base_query_sql where_clauses sort_by sort_order,
     params ++ [PInt per_page; PInt offset]);
    (count_query_sql where_clauses, params) ].

(** A row passes the filters of a [record_transformer] request: its category
    is the requested one, and its description matches the search text
    between two [%]. *)
Definition matches_filters (category_filter search_description : option pystr)
  (r : ProcessedRecord) : Prop :=
  (truthy category_filter = true -> category r = category_filter)
  /\ (truthy search_description = true ->
      exists q, search_description = Some q
                /\ ilike (description r) (py "%" ++ q ++ py "%") = true).

(** The form passes the checks of lines 465-472, resp. 508-515. *)
Definition update_accepted (form : Args) : Prop :=
  match args_get form (py "record_ids"),
        args_get form (py "new_category") with
  | Some (c :: s), Some (_ :: _) => parse_record_ids (c :: s) <> []
  | _, _ => False
  end.

Definition delete_accepted (form : Args) : Prop :=
  match args_get form (py "record_ids") with
  | Some (c :: s) => parse_record_ids (c :: s) <> []
  | _ => False
  end.

(** Stand-ins for what the section takes from Python and PostgreSQL: [int]
    on ASCII digits, and a store that reads no date text, numbers every week
    0, matches no pattern and orders text by length. *)
Fixpoint digits_value (acc : Z) (s : pystr) : option Z :=
  match s with
  | [] => Some acc
  | c :: s' =>
      if ((48 <=? c) && (c <=? 57))%N
      then digits_value (10 * acc + Z.of_N (c - 48)) s'
      else None
  end.

Definition sample_int (s : pystr) : option Z :=
  match s with
  | [] => None
  | _ :: _ => digits_value 0 s
  end.

Definition sample_date_in (s : pystr) : option Date := None.

Definition sample_iso_week (d : Date) : Z := 0.

Definition lower (c : N) : N :=
  if ((65 <=? c) && (c <=? 90))%N then (c + 32)%N else c.

(** [LIKE] with [%] and [_], without escapes, letters compared in lower
    case. *)
Fixpoint like (pattern text : pystr) : bool :=
  match pattern with
  | [] => match text with [] => true | _ :: _ => false end
  | c :: rest =>
      if N.eqb c 37 then
        (fix any (t : pystr) : bool :=
           like rest t
           || match t with
              | [] => false
              | _ :: t' => any t'
              end) text
      else
        match text with
        | [] => false
        | x :: text' =>
            (N.eqb c 95 || N.eqb (lower c) (lower x)) && like rest text'
        end
  end.

Definition sample_ilike (text pattern : pystr) : bool := like pattern text.

Definition sample_text_leb (a b : pystr) : bool :=
  (List.length a <=? List.length b)%nat.

Definition sample_row (id : pystr) (c : option pystr) (a : Z)
  : ProcessedRecord :=
  mkProcessed id (mkDate 2024 1 15) (mkDate 2024 1 15) (py "BE00")
    (py "payment") (Some a) (py "EUR") c.

Definition sample_table : list ProcessedRecord :=
  [ sample_row (py "A") (Some (py "Food")) (-50);
    sample_row (py "B") (Some (py "Food")) (-30);
    sample_row (py "Z") None 200 ].

Definition sample_store (fs : list (option pystr)) : Store :=
  mkStore [] sample_table (mkDate 2024 1 20) fs [].

Definition sample_form : Args :=
  [ (py "record_ids", py "A, B ,,C"); (py "new_category", py "X") ].

(** ** Further definitions used to state properties *)

(** The sum of the code points of a string. *)
Definition code_sum (s : pystr) : Z :=
  fold_right Z.add 0 (List.map Z.of_N s).

(** An id as [parse_record_ids] hands it on: not empty, no whitespace at
    either end, no comma. *)
Definition clean_id (id : pystr) : Prop :=
  id <> [] /\ trimmed id /\ ~ In 44%N id.

(** The amounts of some rows added up, a NULL amount counting 0. *)
Definition amount_total (rows : list ProcessedRecord) : Z :=
  fold_right Z.add 0 (List.map (fun r => float_or_zero (amount r)) rows).

Definition Zsum (xs : list Z) : Z := fold_right Z.add 0 xs.

(** One turn of the formatting loop of [get_spending_data]. *)
Definition item_of (record : option pystr * option Z) : SpendingItem :=
  mkItem
    match fst record with
    | Some c => c
    | None => py "Uncategorized"
    end
    (float_or_zero (snd record)).


(** [a] is a later month than [b], resp. a later year. *)
Definition later_month (a b : MonthlyBalance) : Prop :=
  mb_year b < mb_year a
  \/ (mb_year a = mb_year b /\ mb_month b < mb_month a).

Definition later_year (a b : YearlyBalance) : Prop :=
  yb_year b < yb_year a.

(** What the UPDATE of [update_categories] does to one row. *)
Definition recategorize (new_category : pystr) (record_ids : list pystr)
  (r : ProcessedRecord) : ProcessedRecord :=
  if str_in (record_id_bank r) record_ids
  then set_category new_category r else r.

(** The two tables of a store. *)
Definition tables (s : Store)
  : list UnprocessedRecord * list ProcessedRecord :=
  (unprocessed_records s, processed_records s).

(** [a] is listed before [b] in [admin]: its transaction date is not the
    older one. *)
Definition not_older (a b : UnprocessedRecord) : Prop :=
  date_leb (u_transaction_date b) (u_transaction_date a) = true.

(** * Properties *)

(** ** Strings *)

Lemma pystr_eqb_eq (a b : pystr) : pystr_eqb a b = true <-> a = b.
Proof.
  revert b; induction a as [|x a IH]; intros [|y b]; simpl;
    try (split; (discriminate || reflexivity)).
  rewrite andb_true_iff, N.eqb_eq, IH.
  split; [intros [-> ->]; reflexivity | intros [= -> ->]; auto].
Qed.

Lemma pystr_eqb_refl (a : pystr) : pystr_eqb a a = true.
Proof. apply pystr_eqb_eq; reflexivity. Qed.

Lemma str_in_In (x : pystr) (xs : list pystr) :
  str_in x xs = true <-> In x xs.
Proof.
  unfold str_in. rewrite existsb_exists. split.
  - intros (y & Hy & E). apply pystr_eqb_eq in E. subst; assumption.
  - intros H. exists x. split; [assumption | apply pystr_eqb_refl].
Qed.

(** ** The category colour *)

Lemma hash_step_31 (h : Z) (c : N) : hash_step h c = Z.of_N c + 31 * h.
Proof. unfold hash_step. rewrite Z.shiftl_mul_pow2 by lia. lia. Qed.

Lemma hash_value_of_app (s : pystr) (c : N) :
  hash_value_of (s ++ [c]) = hash_step (hash_value_of s) c.
Proof. unfold hash_value_of. rewrite fold_left_app. reflexivity. Qed.

Lemma hash_value_of_rolling (s : pystr) : hash_value_of s = rolling_hash s.
Proof.
  unfold rolling_hash.
  induction s as [|c s IH] using rev_ind; [reflexivity|].
  rewrite hash_value_of_app, rev_app_distr, IH. reflexivity.
Qed.

Lemma hash_value_of_nonneg (s : pystr) : 0 <= hash_value_of s.
Proof.
  induction s as [|c s IH] using rev_ind; [reflexivity|].
  rewrite hash_value_of_app, hash_step_31. lia.
Qed.

(** C4: for every string, the empty one included, the colour is a function
    of the string alone, it is one of the ten palette entries, and it is the
    entry at index [abs(h) mod 10], where [h] follows the recurrence
    [h_new = code(c) + ((h_old << 5) - h_old)] from [h = 0]. *)
Theorem get_category_color_in_palette (category : pystr) :
  hash_value_of category = rolling_hash category
  /\ get_category_color category
     = nth (Z.to_nat (Z.abs (rolling_hash category) mod 10)) colors []
  /\ (0 <= Z.abs (rolling_hash category) mod 10 < 10)
  /\ List.length colors = 10%nat
  /\ In (get_category_color category) colors
  /\ (forall again : pystr,
        again = category ->
        get_category_color again = get_category_color category).
Proof.
  assert (R : 0 <= Z.abs (rolling_hash category) mod 10 < 10)
    by (apply Z.mod_pos_bound; lia).
  repeat split; try apply R.
  - apply hash_value_of_rolling.
  - unfold get_category_color. rewrite hash_value_of_rolling. reflexivity.
  - unfold get_category_color. rewrite hash_value_of_rolling.
    apply nth_In. change (List.length colors) with 10%nat. lia.
  - intros again ->. reflexivity.
Qed.

(** ** Page arithmetic *)

Lemma total_pages_of_bounds (total_count per_page : Z) :
  0 < per_page ->
  per_page * (total_pages_of total_count per_page - 1) < total_count
  /\ total_count <= per_page * total_pages_of total_count per_page.
Proof.
  intros Hp. unfold total_pages_of.
  pose proof (Z.div_mod (total_count + per_page - 1) per_page ltac:(lia)) as E.
  pose proof (Z.mod_pos_bound (total_count + per_page - 1) per_page Hp) as B.
  lia.
Qed.

Lemma ceil_ratio_bounds (total_count per_page : Z) :
  0 < per_page ->
  per_page * (ceil_ratio total_count per_page - 1) < total_count
  /\ total_count <= per_page * ceil_ratio total_count per_page.
Proof.
  intros Hp.
  destruct per_page as [|p|p]; try lia.
  change (ceil_ratio total_count (Z.pos p))
    with (- (- (total_count * 1) / Z.pos (1 * p))).
  rewrite Z.mul_1_r, Pos.mul_1_l.
  pose proof (Z.div_mod (- total_count) (Z.pos p) ltac:(lia)) as E.
  pose proof (Z.mod_pos_bound (- total_count) (Z.pos p) ltac:(lia)) as B.
  lia.
Qed.

(** C9: for a count that is not negative and a page size between 1 and 100,
    [(total_count + per_page - 1) // per_page] is the ceiling of
    [total_count / per_page], and it is 0 for a count of 0. *)
Theorem total_pages_is_ceiling (total_count per_page : Z) :
  0 <= total_count ->
  1 <= per_page <= 100 ->
  total_pages_of total_count per_page = ceil_ratio total_count per_page
  /\ total_pages_of 0 per_page = 0.
Proof.
  intros Ht Hp. split.
  - pose proof (total_pages_of_bounds total_count per_page ltac:(lia)).
    pose proof (ceil_ratio_bounds total_count per_page ltac:(lia)).
    nia.
  - unfold total_pages_of. apply Z.div_small. lia.
Qed.

(** C8: for every raw [page] and [per_page], in both listings and on the
    dashboard, the page number is at least 1, the page size lies in
    [1, 100], a page size that is not numeric, not positive or above 100
    becomes 10, and the offset is [(page - 1) * per_page]. *)
Theorem pagination_normalized (args : Args) :
  (let '(page, per_page, offset) := page_pagination args in
   1 <= page /\ 1 <= per_page <= 100
   /\ offset = (page - 1) * per_page
   /\ (invalid_per_page (raw_int args (py "per_page")) -> per_page = 10))
  /\ (let '(monthly_page, yearly_page, per_page,
            monthly_offset, yearly_offset) := index_pagination args in
      1 <= monthly_page /\ 1 <= yearly_page /\ 1 <= per_page <= 100
      /\ monthly_offset = (monthly_page - 1) * per_page
      /\ yearly_offset = (yearly_page - 1) * per_page
      /\ (invalid_per_page (raw_int args (py "per_page")) -> per_page = 10)).
Proof.
  unfold page_pagination, index_pagination, raw_int, args_get_int.
  destruct (args_get args (py "per_page")) as [v|];
    [destruct (py_int v) as [z|]|];
    cbn [invalid_per_page];
    repeat match goal with
      | |- context [?a <? ?b] => destruct (Z.ltb_spec a b)
      end;
    cbn [orb]; repeat split; intros; lia.
Qed.

(** A page size that is numeric and within [1, 100] is kept, and so is a
    page number that is at least 1. *)
Lemma pagination_keeps_valid (args : Args) (p n : Z) :
  raw_int args (py "page") = Numeric p -> 1 <= p ->
  raw_int args (py "per_page") = Numeric n -> 1 <= n <= 100 ->
  page_pagination args = (p, n, (p - 1) * n).
Proof.
  unfold page_pagination, raw_int, args_get_int.
  destruct (args_get args (py "page")) as [v|]; [|discriminate].
  destruct (py_int v) as [z|]; [|discriminate]. intros [= ->] Hp.
  destruct (args_get args (py "per_page")) as [w|]; [|discriminate].
  destruct (py_int w) as [z|]; [|discriminate]. intros [= ->] Hn.
  destruct (Z.ltb_spec p 1); [lia|].
  destruct (Z.ltb_spec n 1); [lia|].
  destruct (Z.ltb_spec 100 n); [lia|]. reflexivity.
Qed.

(** ** Sort parameters *)

Lemma sort_parameters_spec (args : Args) :
  let raw_by :=
    args_get_default args (py "sort_by") (py "transaction_date") in
  let raw_order := args_get_default args (py "sort_order") (py "desc") in
  sort_parameters args
  = (if str_in raw_by valid_sort_fields
     then raw_by else py "transaction_date",
     if str_in raw_order [py "asc"; py "desc"]
     then raw_order else py "desc").
Proof.
  cbv zeta. unfold sort_parameters.
  destruct (str_in _ valid_sort_fields), (str_in _ [py "asc"; py "desc"]);
    reflexivity.
Qed.

Lemma sort_parameters_allowed (args : Args) :
  In (fst (sort_parameters args)) valid_sort_fields
  /\ In (snd (sort_parameters args)) [py "asc"; py "desc"].
Proof.
  rewrite sort_parameters_spec. cbn [fst snd]. split.
  - destruct (str_in _ valid_sort_fields) eqn:E.
    + apply str_in_In; assumption.
    + right; left; reflexivity.
  - destruct (str_in _ [py "asc"; py "desc"]) eqn:E.
    + apply str_in_In; assumption.
    + right; left; reflexivity.
Qed.

(** ** Running a handler step by step *)

Lemma wp_elim {A} (m : M A) (Q : Outcome A -> Store -> Prop) (s : Store) :
  wp m Q s -> Q (fst (m s)) (snd (m s)).
Proof. exact (fun H => H). Qed.

Lemma wp_ret {A} (a : A) Q s : Q (Return a) s -> wp (ret a) Q s.
Proof. exact (fun H => H). Qed.

Lemma wp_lift {A} (o : Outcome A) Q s : Q o s -> wp (lift o) Q s.
Proof. exact (fun H => H). Qed.

Lemma wp_gets {A} (f : Store -> A) Q s :
  Q (Return (f s)) s -> wp (gets f) Q s.
Proof. exact (fun H => H). Qed.

Lemma wp_bind {A B} (m : M A) (k : A -> M B) Q s :
  wp m (fun o s' =>
          match o with
          | Return a => wp (k a) Q s'
          | Raise e => Q (Raise e) s'
          end) s ->
  wp (bind m k) Q s.
Proof. unfold wp, bind. destruct (m s) as [[a|e] s']; exact (fun H => H). Qed.

Lemma wp_try_except {A} (body : M A) (handler : pystr -> M A) Q s :
  wp body (fun o s' =>
             match o with
             | Return a => Q (Return a) s'
             | Raise e => wp (handler e) Q s'
             end) s ->
  wp (try_except body handler) Q s.
Proof.
  unfold wp, try_except. destruct (body s) as [[a|e] s']; exact (fun H => H).
Qed.

Lemma wp_data_access Q u p d f r :
  match f with
  | [] => Q (Return tt) (mkStore u p d [] r)
  | Some e :: fs => Q (Raise e) (mkStore u p d fs r)
  | None :: fs => Q (Return tt) (mkStore u p d fs r)
  end ->
  wp data_access Q (mkStore u p d f r).
Proof. destruct f as [|[e|] fs]; exact (fun H => H). Qed.

Lemma wp_received Q (stmt : Statement) u p d f r :
  Q (Return tt) (mkStore u p d f (r ++ [stmt])) ->
  wp (fun s => (Return tt, with_received s stmt)) Q (mkStore u p d f r).
Proof. exact (fun H => H). Qed.

Lemma wp_processed Q (t : list ProcessedRecord) u p d f r :
  Q (Return tt) (mkStore u t d f r) ->
  wp (fun s => (Return tt, with_processed s t)) Q (mkStore u p d f r).
Proof. exact (fun H => H). Qed.

(** One step of a handler on a store given field by field; a driver call
    splits on the head of the fault schedule, a statement on its outcome. *)
Ltac wp_step :=
  lazymatch goal with
  | |- wp (bind _ _) _ _ => apply wp_bind
  | |- wp (try_except _ _) _ _ => apply wp_try_except
  | |- wp (ret _) _ _ => apply wp_ret
  | |- wp (lift _) _ _ => apply wp_lift
  | |- wp (gets _) _ _ => apply wp_gets
  | |- wp get_db_connection _ _ => unfold get_db_connection
  | |- wp (cursor _) _ _ => unfold cursor
  | |- wp (execute _ _ _) _ _ => unfold execute
  | |- wp (fetchall _) _ _ => unfold fetchall
  | |- wp (commit _) _ _ => unfold commit
  | |- wp close _ _ => unfold close
  | |- wp (fun s => (Return tt, with_received s _)) _ _ => apply wp_received
  | |- wp (fun s => (Return tt, with_processed s _)) _ _ => apply wp_processed
  | |- wp data_access _ (mkStore _ _ _ ?f _) =>
      apply wp_data_access;
      first [ is_var f; destruct f as [|[?e|] f] | idtac ]
  | |- match ?o with Return _ => _ | Raise _ => _ end =>
      let E := fresh "E" in destruct o as [?a|?e] eqn:E
  | |- wp (let (_, _) := ?x in _) _ _ =>
      let E := fresh "E" in destruct x eqn:E
  end; cbv beta iota;
  cbn [processed_records unprocessed_records current_date faults received
       view].

Ltac wp_run := repeat wp_step.

(** A schedule without faults cannot hold one. *)
Ltac no_fault :=
  repeat match goal with
    | H : forallb no_fault_at _ = true |- _ =>
        progress cbn [forallb no_fault_at andb] in H
    end;
  try discriminate.

(** ** The statements of record_transformer *)

Lemma count_params_filters (category_filter search_description : option pystr)
  (limit offset : Param) :
  let '(where_clauses, params) :=
    build_filters category_filter search_description in
  count_params where_clauses (params ++ [limit; offset]) = params.
Proof.
  unfold build_filters.
  destruct category_filter as [[|c s]|], search_description as [[|d t]|];
    reflexivity.
Qed.

Lemma record_transformer_received (args : Args) (s : Store) :
  exists n,
    received (snd (record_transformer args s))
    = received s ++ firstn n (transformer_statements args).
Proof.
  apply (wp_elim (record_transformer args)
           (fun _ s' => exists n,
              received s'
              = received s ++ firstn n (transformer_statements args))).
  unfold record_transformer, transformer_statements.
  destruct (page_pagination args) as [[page per_page] offset].
  destruct (sort_parameters args) as [sort_by sort_order].
  pose proof (count_params_filters (args_get args (py "category"))
                (args_get args (py "search")) (PInt per_page) (PInt offset))
    as CP.
  destruct (build_filters _ _) as [where_clauses params].
  destruct s as [u p d f r].
  cbn [received].
  wp_run; rewrite ?CP;
    solve [ exists 0%nat; cbn [firstn]; rewrite ?app_nil_r; reflexivity
          | exists 1%nat; cbn [firstn]; rewrite <- ?app_assoc; reflexivity
          | exists 2%nat; cbn [firstn]; rewrite <- ?app_assoc; reflexivity
          | exists 3%nat; cbn [firstn]; rewrite <- ?app_assoc; reflexivity ].
Qed.

Lemma In_firstn {A} (n : nat) (l : list A) (x : A) :
  In x (firstn n l) -> In x l.
Proof.
  revert l; induction n as [|n IH]; intros [|y l]; simpl; try tauto.
  intros [->|H]; [left; reflexivity | right; apply IH; assumption].
Qed.

(** C5: whatever [sort_by] and [sort_order] a request carries, the column
    that reaches the query is one of the eight allow-listed fields and is
    [transaction_date] when the input is not one of them, the direction is
    [asc] or [desc] and is [desc] when the input is neither, and every
    statement the view sends carries no other ORDER BY text. *)
Theorem sort_parameters_allow_listed (args : Args) :
  let raw_by :=
    args_get_default args (py "sort_by") (py "transaction_date") in
  let raw_order := args_get_default args (py "sort_order") (py "desc") in
  let sort_by := fst (sort_parameters args) in
  let sort_order := snd (sort_parameters args) in
  List.length valid_sort_fields = 8%nat
  /\ In sort_by valid_sort_fields
  /\ In sort_order [py "asc"; py "desc"]
  /\ (In raw_by valid_sort_fields -> sort_by = raw_by)
  /\ (~ In raw_by valid_sort_fields -> sort_by = py "transaction_date")
  /\ (In raw_order [py "asc"; py "desc"] -> sort_order = raw_order)
  /\ (~ In raw_order [py "asc"; py "desc"] -> sort_order = py "desc")
  /\ (forall (s : Store) (query : pystr) (params : list Param),
        In (query, params) (received (snd (record_transformer args s))) ->
        In (query, params) (received s)
        \/ query = category_query_sql
        \/ (exists where_clauses, query = count_query_sql where_clauses)
        \/ (exists where_clauses,
              query
              = py "SELECT record_id_bank, transaction_date, currency_date, account, description, amount, currency, category FROM processed_records "
                ++ where_sql where_clauses
                ++ py " ORDER BY " ++ sort_by ++ py " " ++ sort_order
                ++ py " LIMIT %s OFFSET %s")).
Proof.
  cbv zeta.
  destruct (sort_parameters_allowed args) as [Hby Hord].
  pose proof (sort_parameters_spec args) as Spec. cbv zeta in Spec.
  repeat split; try assumption.
  - rewrite Spec. cbn [fst]. intros H. apply str_in_In in H. rewrite H.
    reflexivity.
  - rewrite Spec. cbn [fst]. intros H.
    destruct (str_in _ valid_sort_fields) eqn:E; [|reflexivity].
    apply str_in_In in E. contradiction.
  - rewrite Spec. cbn [snd]. intros H. apply str_in_In in H. rewrite H.
    reflexivity.
  - rewrite Spec. cbn [snd]. intros H.
    destruct (str_in _ [py "asc"; py "desc"]) eqn:E; [|reflexivity].
    apply str_in_In in E. contradiction.
  - intros s query params H.
    destruct (record_transformer_received args s) as [n E].
    rewrite E in H. apply in_app_or in H. destruct H as [H|H]; [left; exact H|].
    right. apply In_firstn in H. revert H.
    unfold transformer_statements.
    destruct (page_pagination args) as [[page per_page] offset].
    destruct (sort_parameters args) as [sort_by sort_order].
    destruct (build_filters _ _) as [where_clauses ps].
    cbn [fst snd].
    intros [H|[H|[H|[]]]]; injection H as <- _.
    + left; reflexivity.
    + right; right. exists where_clauses. reflexivity.
    + right; left. exists where_clauses. reflexivity.
Qed.

(** ** The filters of record_transformer *)

Lemma where_holds_filters (category_filter search_description : option pystr)
  (rest : list Param) :
  let '(where_clauses, params) :=
    build_filters category_filter search_description in
  exists holds,
    where_holds where_clauses (params ++ rest) = Some (holds, rest)
    /\ (forall r, holds r = true
                  <-> matches_filters category_filter search_description r).
Proof.
  unfold build_filters, matches_filters.
  destruct category_filter as [[|c s]|], search_description as [[|d t]|];
    cbn [app where_holds clause_holds truthy];
    eexists; (split; [reflexivity|]); intros r; cbn beta;
    rewrite ?andb_true_iff, ?andb_true_r; unfold category_is;
    repeat split; intros; try discriminate; try tauto;
    repeat match goal with
      | H : _ /\ _ |- _ => destruct H
      | H : match category r with _ => _ end = true |- _ =>
          destruct (category r) as [c'|]; [|discriminate];
          apply pystr_eqb_eq in H; subst
      | |- exists q, Some ?x = Some q /\ _ => exists x; split; [reflexivity|]
      | H : true = true -> ?P |- _ => specialize (H eq_refl)
      | H : exists q, Some _ = Some q /\ _ |- _ =>
          let q := fresh "q" in
          let E := fresh "E" in
          destruct H as (q & E & H); injection E as <-
      | H : category r = Some _ |- _ => rewrite H
      end;
    try reflexivity; try assumption; try apply pystr_eqb_refl.
Qed.

Lemma sort_before_allowed (args : Args) :
  exists before,
    sort_before (fst (sort_parameters args)) (snd (sort_parameters args))
    = Some before.
Proof.
  destruct (sort_parameters_allowed args) as [Hby Hord].
  destruct (sort_parameters args) as [sort_by sort_order]. cbn [fst snd] in *.
  cbn [In valid_sort_fields] in Hby, Hord.
  repeat match goal with
    | H : _ \/ _ |- _ => destruct H
    | H : False |- _ => destruct H
    end; subst; vm_compute; eexists; reflexivity.
Qed.

(** C2: for every combination of supplied and omitted [category] and
    [search], the row-fetch statement and the count statement carry one
    WHERE text and one list of filter parameters; the fetch adds ORDER BY,
    LIMIT and OFFSET with the page size and offset as its last two
    parameters.  Both keep exactly the rows whose category equals the
    requested one and whose description matches the search text, so the
    count of a rendered page is the number of rows its listing pages
    through. *)
Theorem count_query_filters_in_sync (args : Args) :
  let category_filter := args_get args (py "category") in
  let search_description := args_get args (py "search") in
  let per_page := snd (fst (page_pagination args)) in
  let offset := snd (page_pagination args) in
  let sort_by := fst (sort_parameters args) in
  let sort_order := snd (sort_parameters args) in
  exists where_clauses params holds before,
    build_filters category_filter search_description = (where_clauses, params)
    /\ sort_before sort_by sort_order = Some before
    /\ (forall r, holds r = true
                  <-> matches_filters category_filter search_description r)
    /\ (forall s, exists n,
          received (snd (record_transformer args s))
          = received s
            ++ firstn n
                 [ (category_query_sql, []);
                   (py "SELECT record_id_bank, transaction_date, currency_date, account, description, amount, currency, category FROM processed_records "
                    ++ where_sql where_clauses
                    ++ py " ORDER BY " ++ sort_by ++ py " " ++ sort_order
                    ++ py " LIMIT %s OFFSET %s",
                    params ++ [PInt per_page; PInt offset]);
                   (py "SELECT COUNT(*) FROM processed_records"
                    ++ where_sql where_clauses,
                    params) ])
    /\ (forall table,
          count_query where_clauses params table
          = Return (Z.of_nat (List.length (filter holds table))))
    /\ (forall table rows,
          base_query where_clauses sort_by sort_order
            (params ++ [PInt per_page; PInt offset]) table = Return rows ->
          rows = slice (order_by before (filter holds table)) offset per_page)
    /\ (forall s template context,
          fst (record_transformer args s) = Return (Rendered template context) ->
          rt_total_count context
          = Z.of_nat (List.length (filter holds (processed_records s)))
          /\ rt_records context
             = slice (order_by before (filter holds (processed_records s)))
                 offset per_page).
Proof.
  cbv zeta.
  pose proof (where_holds_filters (args_get args (py "category"))
                (args_get args (py "search"))) as WH.
  pose proof (record_transformer_received args) as RX.
  pose proof (count_params_filters (args_get args (py "category"))
                (args_get args (py "search"))) as CP.
  destruct (sort_before_allowed args) as [before SB].
  unfold transformer_statements in RX.
  destruct (page_pagination args) as [[page per_page] offset] eqn:EP.
  destruct (sort_parameters args) as [sort_by sort_order] eqn:ES.
  destruct (build_filters _ _) as [where_clauses params] eqn:EB.
  cbn [fst snd] in *.
  destruct (WH []) as (holds & W0 & Hholds). rewrite app_nil_r in W0.
  destruct (WH [PInt per_page; PInt offset]) as (holds' & W2 & _).
  assert (Hcount : forall table,
             count_query where_clauses params table
             = Return (Z.of_nat (List.length (filter holds table)))).
  { intros table. unfold count_query. rewrite W0. reflexivity. }
  assert (Hfetch : forall table rows,
             base_query where_clauses sort_by sort_order
               (params ++ [PInt per_page; PInt offset]) table = Return rows ->
             rows
             = slice (order_by before (filter holds table)) offset per_page).
  { intros table rows. unfold base_query. rewrite W2, SB.
    assert (holds' = holds) as ->.
    { clear - W0 W2. revert params holds holds' W0 W2.
      induction where_clauses as [|c cs IH]; intros params holds holds'.
      - cbn. intros [= <- _] [= <-]. reflexivity.
      - cbn. destruct params as [|[v|z|l] params]; try discriminate. cbn.
        destruct (where_holds cs params) as [[h0 r0]|] eqn:E0;
          [|discriminate].
        destruct (where_holds cs (params ++ _)) as [[h2 r2]|] eqn:E2;
          [|discriminate].
        intros H0 H2. injection H0 as <- ->. injection H2 as <- ->.
        rewrite (IH _ _ _ E0 E2). reflexivity. }
    unfold limit_offset.
    destruct (_ && _); [|discriminate]. intros [= <-]. reflexivity. }
  exists where_clauses, params, holds, before.
  repeat match goal with |- _ /\ _ => split end;
    try assumption; try reflexivity.
  intros s template context.
  apply (wp_elim _
           (fun o s' =>
              o = Return (Rendered template context) ->
              rt_total_count context
              = Z.of_nat (List.length (filter holds (processed_records s)))
              /\ rt_records context
                 = slice (order_by before (filter holds (processed_records s)))
                     offset per_page)).
  unfold record_transformer. rewrite EP, ES, EB.
  destruct s as [u p d f r]. cbn [processed_records].
  wp_run; intros [= <- <-]; cbn [rt_total_count rt_records].
  all: rewrite (CP (PInt per_page) (PInt offset)) in *.
  all: rewrite Hcount in *.
  all: match goal with
       | H : base_query _ _ _ _ _ = Return _ |- _ => apply Hfetch in H
       end.
  all: split; congruence.
Qed.

(** ** Parsing the submitted ids *)

Definition is_space (c : N) : Prop := isspace c = true.

Lemma lstrip_decompose (s : pystr) :
  exists pre,
    s = pre ++ lstrip s
    /\ Forall is_space pre
    /\ (forall c, hd_error (lstrip s) = Some c -> isspace c = false).
Proof.
  induction s as [|c s (pre & E & Hpre & Hhd)].
  - exists []. repeat split; [constructor | discriminate].
  - cbn [lstrip]. destruct (isspace c) eqn:Hc.
    + exists (c :: pre). repeat split.
      * cbn. rewrite <- E. reflexivity.
      * constructor; assumption.
      * assumption.
    + exists []. repeat split; [constructor|].
      intros c' [= <-]. assumption.
Qed.

Lemma strip_decompose (s : pystr) :
  exists pre suf,
    s = pre ++ strip s ++ suf
    /\ Forall is_space pre /\ Forall is_space suf
    /\ trimmed (strip s).
Proof.
  destruct (lstrip_decompose s) as (pre & E & Hpre & Hhd).
  destruct (lstrip_decompose (rev (lstrip s))) as (erp & E' & Herp & Hlast).
  assert (T : lstrip s = strip s ++ rev erp).
  { unfold strip, rstrip. rewrite <- rev_app_distr, <- E', rev_involutive.
    reflexivity. }
  exists pre, (rev erp). repeat split.
  - rewrite <- T. exact E.
  - assumption.
  - apply Forall_rev. assumption.
  - intros c Hc. apply Hhd. rewrite T.
    destruct (strip s); [discriminate | exact Hc].
  - intros c. unfold strip, rstrip. rewrite rev_involutive. apply Hlast.
Qed.

Lemma split_not_nil (sep : N) (s : pystr) : split sep s <> [].
Proof.
  destruct s as [|c s]; cbn; [discriminate|].
  destruct (N.eqb c sep); [discriminate|].
  destruct (split sep s); discriminate.
Qed.

Lemma join_split (sep : N) (s : pystr) : str_join [sep] (split sep s) = s.
Proof.
  induction s as [|c s IH]; [reflexivity|].
  cbn [split]. pose proof (split_not_nil sep s) as NN.
  destruct (N.eqb_spec c sep) as [->|_].
  - destruct (split sep s) as [|p ps]; [contradiction|].
    transitivity (sep :: str_join [sep] (p :: ps));
      [reflexivity | rewrite IH; reflexivity].
  - destruct (split sep s) as [|p ps]; [contradiction|].
    transitivity (c :: str_join [sep] (p :: ps));
      [destruct ps; reflexivity | rewrite IH; reflexivity].
Qed.

Lemma split_pieces_without_sep (sep : N) (s piece : pystr) :
  In piece (split sep s) -> ~ In sep piece.
Proof.
  revert piece; induction s as [|c s IH]; intros piece.
  - cbn. intros [<-|[]] [].
  - cbn [split]. destruct (N.eqb_spec c sep) as [->|Hc].
    + intros [<-|H]; [intros [] | apply IH; assumption].
    + destruct (split sep s) as [|p ps].
      * intros [<-|[]] [E|[]]. congruence.
      * intros [<-|H].
        -- intros [E|H]; [congruence | apply (IH p); [left; reflexivity | exact H]].
        -- apply IH. right. exact H.
Qed.

(** Split, trim every piece, drop the empty ones: the comprehension of the
    source filters first and trims afterwards. *)
Lemma parse_record_ids_spec (record_ids_str : pystr) :
  parse_record_ids record_ids_str
  = filter (fun id => match id with [] => false | _ => true end)
      (List.map strip (split 44 record_ids_str)).
Proof.
  unfold parse_record_ids.
  induction (split 44 record_ids_str) as [|p ps IH]; [reflexivity|].
  cbn [filter List.map]. destruct (strip p) eqn:E; cbn [List.map];
    rewrite IH, ?E; reflexivity.
Qed.

(** C6: the submitted ids are the pieces between commas, trimmed, the empty
    ones dropped, so ["A, B ,,C"] gives A, B and C; and a successful bulk
    recategorize reports the number of parsed ids, whatever rows the store
    holds. *)
Theorem update_categories_reports_submitted :
  parse_record_ids (py "A, B ,,C") = [py "A"; py "B"; py "C"]
  /\ (forall record_ids_str,
        parse_record_ids record_ids_str
        = filter (fun id => match id with [] => false | _ => true end)
            (List.map strip (split 44 record_ids_str))
        /\ str_join [44%N] (split 44 record_ids_str) = record_ids_str
        /\ (forall piece, In piece (split 44 record_ids_str) ->
                          ~ In 44%N piece))
  /\ (forall piece,
        exists pre suf,
          piece = pre ++ strip piece ++ suf
          /\ Forall is_space pre /\ Forall is_space suf
          /\ trimmed (strip piece))
  /\ (forall (form : Args) (s : Store) (body : pystr),
        fst (update_categories form s) = Return (body, 200) ->
        exists record_ids_str new_category,
          args_get form (py "record_ids") = Some record_ids_str
          /\ args_get form (py "new_category") = Some new_category
          /\ body
             = py "Successfully updated "
               ++ str_of_nat (List.length (parse_record_ids record_ids_str))
               ++ py " records to category '" ++ new_category ++ py "'")
  /\ (forall s : Store,
        fault_free s ->
        fst (update_categories
               [ (py "record_ids", py "A, B ,,C");
                 (py "new_category", py "X") ] s)
        = Return (py "Successfully updated 3 records to category 'X'", 200)).
Proof.
  split; [vm_compute; reflexivity|].
  split.
  { intros record_ids_str. split; [apply parse_record_ids_spec|].
    split; [apply join_split | apply split_pieces_without_sep]. }
  split; [exact strip_decompose|].
  split.
  - intros form s body.
    apply (wp_elim (update_categories form)
             (fun o _ =>
                o = Return (body, 200) ->
                exists record_ids_str new_category,
                  args_get form (py "record_ids") = Some record_ids_str
                  /\ args_get form (py "new_category") = Some new_category
                  /\ body
                     = py "Successfully updated "
                       ++ str_of_nat
                            (List.length (parse_record_ids record_ids_str))
                       ++ py " records to category '" ++ new_category
                       ++ py "'")).
    unfold update_categories.
    destruct (args_get form (py "record_ids")) as [[|c ids]|];
      destruct (args_get form (py "new_category")) as [[|d cat]|];
      try (wp_run; discriminate).
    destruct (parse_record_ids (c :: ids)) as [|id0 parsed] eqn:EP;
      [wp_run; discriminate|].
    destruct s as [u p dt f r].
    wp_run; try discriminate; intros [= <-];
      exists (c :: ids), (d :: cat); rewrite EP; repeat split.
  - intros s FF.
    apply (wp_elim _
             (fun o _ =>
                o = Return
                      (py "Successfully updated 3 records to category 'X'",
                       200))).
    unfold update_categories.
    change (args_get _ (py "record_ids")) with (Some (py "A, B ,,C")).
    change (args_get _ (py "new_category")) with (Some (py "X")).
    change (py "A, B ,,C") with (65%N :: py ", B ,,C").
    change (py "X") with (88%N :: []).
    cbv beta iota zeta.
    change (parse_record_ids (65%N :: py ", B ,,C"))
      with [py "A"; py "B"; py "C"].
    cbv iota.
    destruct s as [u p dt f r]. unfold fault_free in FF. cbn [faults] in FF.
    wp_run; no_fault; reflexivity.
Qed.

(** ** Failures of the two report functions *)

Lemma get_spending_data_returns (time_period : pystr)
  (category_filter start_date end_date : option pystr) (s : Store) :
  exists items total,
    fst (get_spending_data time_period category_filter start_date end_date s)
    = Return (items, total).
Proof.
  unfold get_spending_data, try_except.
  destruct (get_spending_data_try _ _ _ _ s) as [[[items total]|e] s'];
    cbn; eauto.
Qed.

Lemma get_monthly_yearly_balances_returns (s : Store) :
  exists monthly yearly,
    fst (get_monthly_yearly_balances s) = Return (monthly, yearly).
Proof.
  unfold get_monthly_yearly_balances, try_except.
  destruct (get_monthly_yearly_balances_try s) as [[[monthly yearly]|e] s'];
    cbn; eauto.
Qed.

(** A fault at any of the six driver calls of [get_spending_data] makes its
    [try] block raise. *)
Lemma get_spending_data_try_faulty (time_period : pystr)
  (category_filter start_date end_date : option pystr) (s : Store)
  (e : pystr) :
  first_fault 6 (faults s) = Some e ->
  exists e',
    fst (get_spending_data_try time_period category_filter start_date
           end_date s) = Raise e'.
Proof.
  intros H.
  apply (wp_elim (get_spending_data_try _ _ _ _)
           (fun o _ => exists e', o = Raise e')).
  unfold get_spending_data_try.
  destruct (build_where _ _ _ _) as [[date_filter with_category] params].
  destruct s as [u p d f r]. cbn [faults] in H.
  wp_run; cbn in H; try discriminate; eauto.
Qed.

(** The same for the eight driver calls of [get_monthly_yearly_balances]. *)
Lemma get_monthly_yearly_balances_try_faulty (s : Store) (e : pystr) :
  first_fault 8 (faults s) = Some e ->
  exists e', fst (get_monthly_yearly_balances_try s) = Raise e'.
Proof.
  intros H.
  apply (wp_elim get_monthly_yearly_balances_try
           (fun o _ => exists e', o = Raise e')).
  unfold get_monthly_yearly_balances_try.
  destruct s as [u p d f r]. cbn [faults] in H.
  wp_run; cbn in H; try discriminate; eauto.
Qed.

(** C7: both report functions always return a pair and never raise; when
    the [try] block meets a data-access error, [get_spending_data] returns
    the empty list and 0 and [get_monthly_yearly_balances] returns two empty
    lists; a fault at any driver call is such an error. *)
Theorem report_functions_swallow_errors (time_period : pystr)
  (category_filter start_date end_date : option pystr) (s : Store) :
  let spending :=
    get_spending_data time_period category_filter start_date end_date in
  let spending_try :=
    get_spending_data_try time_period category_filter start_date end_date in
  (exists items total, fst (spending s) = Return (items, total))
  /\ (forall e, fst (spending_try s) = Raise e ->
                fst (spending s) = Return ([], 0))
  /\ (forall e, first_fault 6 (faults s) = Some e ->
                fst (spending s) = Return ([], 0))
  /\ (exists monthly yearly,
        fst (get_monthly_yearly_balances s) = Return (monthly, yearly))
  /\ (forall e, fst (get_monthly_yearly_balances_try s) = Raise e ->
                fst (get_monthly_yearly_balances s) = Return ([], []))
  /\ (forall e, first_fault 8 (faults s) = Some e ->
                fst (get_monthly_yearly_balances s) = Return ([], [])).
Proof.
  cbv zeta.
  assert (S : forall e,
             fst (get_spending_data_try time_period category_filter
                    start_date end_date s) = Raise e ->
             fst (get_spending_data time_period category_filter start_date
                    end_date s) = Return ([], 0)).
  { intros e. unfold get_spending_data, try_except.
    destruct (get_spending_data_try _ _ _ _ s) as [[a|e'] s']; cbn;
      [discriminate | reflexivity]. }
  assert (B : forall e,
             fst (get_monthly_yearly_balances_try s) = Raise e ->
             fst (get_monthly_yearly_balances s) = Return ([], [])).
  { intros e. unfold get_monthly_yearly_balances, try_except.
    destruct (get_monthly_yearly_balances_try s) as [[a|e'] s']; cbn;
      [discriminate | reflexivity]. }
  repeat split.
  - apply get_spending_data_returns.
  - exact S.
  - intros e H.
    destruct (get_spending_data_try_faulty time_period category_filter
                start_date end_date s e H) as [e' E].
    exact (S e' E).
  - apply get_monthly_yearly_balances_returns.
  - exact B.
  - intros e H.
    destruct (get_monthly_yearly_balances_try_faulty s e H) as [e' E].
    exact (B e' E).
Qed.

(** A date the store cannot read is a data-access error as well. *)
Lemma get_spending_data_rejected_date (time_period : pystr)
  (category_filter : option pystr) (c d : N) (start_date end_date : pystr)
  (s : Store) :
  date_in (c :: start_date) = None ->
  fst (get_spending_data time_period category_filter
         (Some (c :: start_date)) (Some (d :: end_date)) s)
  = Return ([], 0).
Proof.
  intros H.
  apply (wp_elim (get_spending_data _ _ _ _)
           (fun o _ => o = Return ([], 0))).
  unfold get_spending_data, get_spending_data_try, build_where,
    build_date_filter.
  destruct s as [u p dt f r].
  destruct category_filter as [[|x cf]|]; wp_run; try reflexivity;
    exfalso;
    match goal with
    | E : spending_query _ _ _ _ _ = Return _ |- _ =>
        unfold spending_query, spending_where, date_filter_holds in E;
        cbn [app] in E; rewrite H in E; discriminate E
    end.
Qed.

(** ** The two mutations *)

(** C10: in both mutation endpoints the commit comes after the connection,
    the cursor and the statement; when one of these three driver calls
    raises, the tables are left as they were, the answer is never the
    success message, and for a form that passes the input checks it is the
    500 response that carries the error text. *)
Theorem mutations_leave_store_on_failure (form : Args) (s : Store)
  (e : pystr) :
  first_fault 3 (faults s) = Some e ->
  (let r := update_categories form s in
   processed_records (snd r) = processed_records s
   /\ unprocessed_records (snd r) = unprocessed_records s
   /\ (forall body, fst r <> Return (body, 200))
   /\ (update_accepted form ->
       fst r = Return (py "Error updating categories: " ++ e, 500)))
  /\ (let r := delete_records form s in
      processed_records (snd r) = processed_records s
      /\ unprocessed_records (snd r) = unprocessed_records s
      /\ (forall body, fst r <> Return (body, 200))
      /\ (delete_accepted form ->
          fst r = Return (py "Error deleting records: " ++ e, 500))).
Proof.
  intros H. cbv zeta. split.
  - apply (wp_elim (update_categories form)
             (fun o s' =>
                processed_records s' = processed_records s
                /\ unprocessed_records s' = unprocessed_records s
                /\ (forall body, o <> Return (body, 200))
                /\ (update_accepted form ->
                    o = Return (py "Error updating categories: " ++ e, 500)))).
    unfold update_categories, update_accepted.
    destruct (args_get form (py "record_ids")) as [[|c ids]|];
      destruct (args_get form (py "new_category")) as [[|d cat]|];
      try (wp_run; repeat split; (discriminate || contradiction)).
    destruct (parse_record_ids (c :: ids)) as [|id0 parsed];
      [wp_run; repeat split; (discriminate || contradiction)|].
    destruct s as [u p dt f r]. cbn [faults] in H.
    wp_run; cbn in H; try discriminate; injection H as ->;
      repeat split; discriminate.
  - apply (wp_elim (delete_records form)
             (fun o s' =>
                processed_records s' = processed_records s
                /\ unprocessed_records s' = unprocessed_records s
                /\ (forall body, o <> Return (body, 200))
                /\ (delete_accepted form ->
                    o = Return (py "Error deleting records: " ++ e, 500)))).
    unfold delete_records, delete_accepted.
    destruct (args_get form (py "record_ids")) as [[|c ids]|];
      try (wp_run; repeat split; (discriminate || contradiction)).
    destruct (parse_record_ids (c :: ids)) as [|id0 parsed];
      [wp_run; repeat split; (discriminate || contradiction)|].
    destruct s as [u p dt f r]. cbn [faults] in H.
    wp_run; cbn in H; try discriminate; injection H as ->;
      repeat split; discriminate.
Qed.

(** Without a fault an accepted recategorization reaches the store: the
    rows named in the form carry the new category afterwards. *)
Lemma update_categories_persists (form : Args) (s : Store)
  (c d : N) (ids new_category : pystr) :
  fault_free s ->
  args_get form (py "record_ids") = Some (c :: ids) ->
  args_get form (py "new_category") = Some (d :: new_category) ->
  parse_record_ids (c :: ids) <> [] ->
  processed_records (snd (update_categories form s))
  = List.map
      (fun r =>
         if str_in (record_id_bank r) (parse_record_ids (c :: ids))
         then set_category (d :: new_category) r else r)
      (processed_records s).
Proof.
  intros FF Hids Hcat Hparsed.
  apply (wp_elim (update_categories form)
           (fun _ s' =>
              processed_records s'
              = List.map
                  (fun r =>
                     if str_in (record_id_bank r)
                          (parse_record_ids (c :: ids))
                     then set_category (d :: new_category) r else r)
                  (processed_records s))).
  unfold update_categories. rewrite Hids, Hcat.
  destruct (parse_record_ids (c :: ids)) as [|id0 parsed];
    [contradiction|].
  destruct s as [u p dt f r]. unfold fault_free in FF. cbn [faults] in FF.
  wp_run; no_fault;
    match goal with
    | E : update_query _ _ = Return _ |- _ => injection E as <-
    end; reflexivity.
Qed.

(** ** The spending aggregation *)

(** Without a fault [get_spending_data] formats what the statement gives. *)
Lemma get_spending_data_fault_free (time_period : pystr)
  (category_filter start_date end_date : option pystr) (s : Store) :
  fault_free s ->
  fst (get_spending_data time_period category_filter start_date end_date s)
  = let '(date_filter, with_category, params) :=
      build_where time_period category_filter start_date end_date in
    match spending_query date_filter with_category params (current_date s)
            (processed_records s) with
    | Return records => Return (format_spending records)
    | Raise _ => Return ([], 0)
    end.
Proof.
  intros FF.
  apply (wp_elim (get_spending_data _ _ _ _)
           (fun o _ =>
              o = let '(date_filter, with_category, params) :=
                    build_where time_period category_filter start_date
                      end_date in
                  match spending_query date_filter with_category params
                          (current_date s) (processed_records s) with
                  | Return records => Return (format_spending records)
                  | Raise _ => Return ([], 0)
                  end)).
  unfold get_spending_data, get_spending_data_try.
  destruct (build_where _ _ _ _) as [[date_filter with_category] params].
  destruct s as [u p d f r]. unfold fault_free in FF. cbn [faults] in FF.
  cbn [current_date processed_records].
  wp_run; no_fault;
    repeat match goal with
      | E : spending_query _ _ _ _ _ = _ |- _ => rewrite E; clear E
      | E : format_spending _ = _ |- _ => rewrite E; clear E
      end; reflexivity.
Qed.

Lemma format_spending_total (records : list (option pystr * option Z)) :
  snd (format_spending records)
  = fold_right Z.add 0 (List.map item_amount (fst (format_spending records))).
Proof.
  unfold format_spending.
  assert (G : forall items total,
             total = fold_right Z.add 0 (List.map item_amount items) ->
             let r :=
               fold_left
                 (fun (acc : list SpendingItem * Z)
                      (record : option pystr * option Z) =>
                    let '(spending_data, total_spending) := acc in
                    let category :=
                      match fst record with
                      | Some c => c
                      | None => py "Uncategorized"
                      end in
                    let amount := float_or_zero (snd record) in
                    (spending_data ++ [mkItem category amount],
                     total_spending + amount))
                 records (items, total) in
             snd r = fold_right Z.add 0 (List.map item_amount (fst r))).
  { induction records as [|record records IH]; intros items total E.
    - exact E.
    - cbn [fold_left]. apply IH.
      rewrite List.map_app, fold_right_app. cbn [List.map fold_right item_amount].
      rewrite E, Z.add_0_r. clear.
      induction (List.map item_amount items) as [|x xs IHx]; cbn [fold_right];
        lia. }
  apply (G [] 0). reflexivity.
Qed.

(** The total handed back is the sum of the amounts handed back, on every
    path. *)
Lemma get_spending_data_total (time_period : pystr)
  (category_filter start_date end_date : option pystr) (s : Store)
  (items : list SpendingItem) (total : Z) :
  fst (get_spending_data time_period category_filter start_date end_date s)
  = Return (items, total) ->
  total = fold_right Z.add 0 (List.map item_amount items).
Proof.
  apply (wp_elim (get_spending_data _ _ _ _)
           (fun o _ =>
              o = Return (items, total) ->
              total = fold_right Z.add 0 (List.map item_amount items))).
  unfold get_spending_data, get_spending_data_try.
  destruct (build_where _ _ _ _) as [[date_filter with_category] params].
  destruct s as [u p d f r].
  wp_run; intros [= <- <-]; try reflexivity;
    match goal with
    | E : format_spending ?x = _ |- _ =>
        pose proof (format_spending_total x) as T; rewrite E in T; exact T
    end.
Qed.

(** C3: on the records Food -50, Food -30 and NULL 200, with no date
    window and no category filter, [get_spending_data] returns
    Uncategorized 200 before Food -80, and the total 120, which is the sum
    of the two amounts. *)
Theorem get_spending_data_example (time_period : pystr) (s : Store) :
  fault_free s ->
  str_in time_period [py "day"; py "week"; py "month"; py "year"] = false ->
  List.map (fun r => (category r, amount r)) (processed_records s)
  = [ (Some (py "Food"), Some (-50)); (Some (py "Food"), Some (-30));
      (None, Some 200) ] ->
  fst (get_spending_data time_period None None None s)
  = Return ([ mkItem (py "Uncategorized") 200; mkItem (py "Food") (-80) ],
            120)
  /\ 120 = fold_right Z.add 0
             (List.map item_amount
                [ mkItem (py "Uncategorized") 200; mkItem (py "Food") (-80) ]).
Proof.
  intros FF Hperiod Hrows. split; [|reflexivity].
  rewrite get_spending_data_fault_free by assumption.
  unfold build_where, build_date_filter.
  cbn [str_in existsb] in Hperiod.
  repeat (apply orb_false_elim in Hperiod;
          destruct Hperiod as [?P Hperiod]).
  rewrite P, P0, P1, P2.
  destruct (processed_records s) as [|r1 [|r2 [|r3 [|r4 rest]]]];
    try discriminate Hrows.
  destruct r1, r2, r3. cbn in Hrows.
  injection Hrows as -> -> -> -> -> ->.
  vm_compute. reflexivity.
Qed.

(** C1, as the code runs: a row without category and a row whose category
    is the text Uncategorized come back as two items of that one label. *)
Theorem get_spending_data_two_uncategorized :
  let row id c a :=
    mkProcessed id (mkDate 2024 1 15) (mkDate 2024 1 15)
      (py "BE00") (py "payment") (Some a) (py "EUR") c in
  let s :=
    mkStore []
      [ row (py "tx-1") None 10;
        row (py "tx-2") (Some (py "Uncategorized")) 5 ]
      (mkDate 2024 1 20) [] [] in
  fst (get_spending_data (py "all") None None None s)
  = Return ([ mkItem (py "Uncategorized") 10; mkItem (py "Uncategorized") 5 ],
            15).
Proof. vm_compute. reflexivity. Qed.

(** * Further properties *)

(** ** The colour index *)

Lemma code_sum_app (s : pystr) (c : N) :
  code_sum (s ++ [c]) = code_sum s + Z.of_N c.
Proof.
  unfold code_sum. rewrite List.map_app, fold_right_app. cbn [List.map fold_right].
  induction (List.map Z.of_N s) as [|x xs IH]; cbn [fold_right]; lia.
Qed.

Lemma hash_value_of_mod_10 (s : pystr) :
  hash_value_of s mod 10 = code_sum s mod 10.
Proof.
  induction s as [|c s IH] using rev_ind; [reflexivity|].
  rewrite hash_value_of_app, hash_step_31, code_sum_app.
  replace (Z.of_N c + 31 * hash_value_of s)
    with (Z.of_N c + hash_value_of s + 3 * hash_value_of s * 10) by lia.
  rewrite Z.mod_add by lia.
  rewrite Z.add_mod, IH, <- Z.add_mod by lia.
  f_equal. lia.
Qed.

Lemma code_sum_perm (a b : pystr) : Permutation a b -> code_sum a = code_sum b.
Proof.
  unfold code_sum. induction 1; cbn [List.map fold_right]; lia.
Qed.

(** X1: the hash is never negative, so [abs] changes nothing, and because
    31 leaves remainder 1 modulo 10 the colour index is the sum of the code
    points modulo 10. *)
Theorem get_category_color_by_code_sum (category : pystr) :
  Z.abs (hash_value_of category) = hash_value_of category
  /\ get_category_color category
     = nth (Z.to_nat (code_sum category mod 10)) colors [].
Proof.
  pose proof (hash_value_of_nonneg category) as NN.
  split; [apply Z.abs_eq; exact NN|].
  unfold get_category_color. rewrite Z.abs_eq by exact NN.
  change (Z.of_nat (List.length colors)) with 10.
  rewrite hash_value_of_mod_10. reflexivity.
Qed.

(** X2: two category names made of the same characters in another order
    get the same colour. *)
Theorem get_category_color_anagram (a b : pystr) :
  Permutation a b -> get_category_color a = get_category_color b.
Proof.
  intros P. unfold get_category_color.
  rewrite !Z.abs_eq by apply hash_value_of_nonneg.
  change (Z.of_nat (List.length colors)) with 10.
  rewrite !hash_value_of_mod_10, (code_sum_perm a b P). reflexivity.
Qed.

(** ** Parsed ids *)

Lemma strip_In (s : pystr) (c : N) : In c (strip s) -> In c s.
Proof.
  destruct (strip_decompose s) as (pre & suf & E & _).
  intros H. rewrite E. apply in_or_app. right. apply in_or_app. left. exact H.
Qed.

Lemma lstrip_fixed (s : pystr) :
  (forall c, hd_error s = Some c -> isspace c = false) -> lstrip s = s.
Proof.
  destruct s as [|c s]; [reflexivity|]. intros H. cbn [lstrip].
  rewrite (H c eq_refl). reflexivity.
Qed.

Lemma strip_trimmed (s : pystr) : trimmed s -> strip s = s.
Proof.
  intros [Hfirst Hlast]. unfold strip, rstrip.
  rewrite (lstrip_fixed s Hfirst), (lstrip_fixed (rev s) Hlast).
  apply rev_involutive.
Qed.

(** X3: every id that [parse_record_ids] hands on is not empty, has no
    whitespace at either end, holds no comma, and is the trimmed form of a
    piece between two commas of the input. *)
Theorem parse_record_ids_clean (record_ids_str : pystr) :
  Forall
    (fun id =>
       clean_id id
       /\ exists piece, In piece (split 44 record_ids_str) /\ id = strip piece)
    (parse_record_ids record_ids_str).
Proof.
  unfold parse_record_ids. apply Forall_forall. intros id H.
  apply in_map_iff in H. destruct H as (piece & <- & H).
  apply filter_In in H. destruct H as [Hin Hne].
  split; [|exists piece; split; [exact Hin | reflexivity]].
  destruct (strip_decompose piece) as (pre & suf & _ & _ & _ & T).
  repeat split.
  - destruct (strip piece); [discriminate | discriminate].
  - apply T.
  - apply T.
  - intros Hc. apply (split_pieces_without_sep 44 record_ids_str piece Hin).
    apply strip_In. exact Hc.
Qed.

Lemma split_without_sep (sep : N) (s : pystr) :
  ~ In sep s -> split sep s = [s].
Proof.
  induction s as [|c s IH]; [reflexivity|]. intros H. cbn [split].
  destruct (N.eqb_spec c sep) as [->|_]; [exfalso; apply H; left; reflexivity|].
  rewrite IH; [reflexivity | intros Hs; apply H; right; exact Hs].
Qed.

Lemma split_app_sep (sep : N) (x rest : pystr) :
  ~ In sep x -> split sep (x ++ sep :: rest) = x :: split sep rest.
Proof.
  induction x as [|c x IH]; intros H.
  - cbn [app split]. rewrite N.eqb_refl. reflexivity.
  - cbn [app split].
    destruct (N.eqb_spec c sep) as [->|_];
      [exfalso; apply H; left; reflexivity|].
    rewrite IH; [reflexivity | intros Hs; apply H; right; exact Hs].
Qed.

Lemma split_join (sep : N) (xs : list pystr) :
  xs <> [] -> Forall (fun x => ~ In sep x) xs ->
  split sep (str_join [sep] xs) = xs.
Proof.
  induction xs as [|x xs IH]; [contradiction|]. intros _ H.
  inversion H as [|? ? Hx Hxs]; subst.
  destruct xs as [|y xs].
  - apply split_without_sep. exact Hx.
  - change (str_join [sep] (x :: y :: xs))
      with (x ++ sep :: str_join [sep] (y :: xs)).
    rewrite split_app_sep by exact Hx.
    rewrite IH; [reflexivity | discriminate | exact Hxs].
Qed.

(** X4: joining ids that are not empty, trimmed and free of commas with
    commas and parsing the result gives the ids back, in order. *)
Theorem parse_record_ids_join (record_ids : list pystr) :
  record_ids <> [] ->
  Forall clean_id record_ids ->
  parse_record_ids (str_join [44%N] record_ids) = record_ids.
Proof.
  intros NE H. unfold parse_record_ids.
  rewrite split_join.
  - clear NE. induction H as [|id ids (Hne & Ht & _) _ IH]; [reflexivity|].
    cbn [filter]. rewrite (strip_trimmed id Ht).
    destruct id as [|c id]; [contradiction|].
    cbn [List.map]. rewrite (strip_trimmed (c :: id) Ht), IH. reflexivity.
  - exact NE.
  - eapply Forall_impl; [|exact H]. intros id (_ & _ & Hc). exact Hc.
Qed.

(** ** GROUP BY, ORDER BY and SUM *)

Lemma insert_row_perm {R} (before : R -> R -> bool) (x : R) (l : list R) :
  Permutation (insert_row before x l) (x :: l).
Proof.
  induction l as [|y l IH]; cbn [insert_row]; [reflexivity|].
  destruct (before x y); [reflexivity|].
  rewrite IH. apply perm_swap.
Qed.

Lemma order_by_perm {R} (before : R -> R -> bool) (l : list R) :
  Permutation (order_by before l) l.
Proof.
  induction l as [|x l IH]; [reflexivity|].
  unfold order_by in *. cbn [fold_right].
  rewrite insert_row_perm. apply perm_skip. exact IH.
Qed.




Lemma Zsum_one (x : Z) : Zsum [x] = x.
Proof. unfold Zsum. cbn [fold_right]. lia. Qed.


Lemma sql_sum_float (xs : list (option Z)) :
  float_or_zero (sql_sum xs) = Zsum (List.map float_or_zero xs).
Proof.
  unfold sql_sum.
  assert (G : forall acc,
             float_or_zero
               (fold_left
                  (fun acc x =>
                     match acc, x with
                     | _, None => acc
                     | None, Some v => Some v
                     | Some a, Some v => Some (a + v)
                     end) xs acc)
             = float_or_zero acc + Zsum (List.map float_or_zero xs)).
  { induction xs as [|x xs IH]; intros acc; cbn [fold_left List.map].
    - unfold Zsum; cbn; lia.
    - rewrite IH. unfold Zsum. cbn [fold_right].
      destruct acc as [a|], x as [v|]; cbn [float_or_zero]; lia. }
  rewrite G. cbn [float_or_zero]. lia.
Qed.



Lemma format_spending_map (records : list (option pystr * option Z)) :
  format_spending records
  = (List.map item_of records,
     Zsum (List.map (fun r => float_or_zero (snd r)) records)).
Proof.
  unfold format_spending.
  assert (G : forall items total,
             fold_left
               (fun (acc : list SpendingItem * Z)
                    (record : option pystr * option Z) =>
                  let '(spending_data, total_spending) := acc in
                  let category :=
                    match fst record with
                    | Some c => c
                    | None => py "Uncategorized"
                    end in
                  let amount := float_or_zero (snd record) in
                  (spending_data ++ [mkItem category amount],
                   total_spending + amount))
               records (items, total)
             = (items ++ List.map item_of records,
                total
                + Zsum (List.map (fun r => float_or_zero (snd r)) records))).
  { induction records as [|r records IH]; intros items total;
      cbn [fold_left List.map].
    - rewrite app_nil_r. unfold Zsum. cbn. f_equal. lia.
    - rewrite IH. rewrite <- app_assoc. unfold Zsum, item_of.
      cbn [fold_right app]. f_equal. lia. }
  rewrite G. reflexivity.
Qed.



Lemma group_by_one_key {K R} (eqb : K -> K -> bool) (key : R -> K) (k : K)
  (rows : list R) :
  eqb k k = true ->
  Forall (fun r => key r = k) rows ->
  group_by eqb key rows
  = match rows with
    | [] => []
    | _ :: _ => [(k, rows)]
    end.
Proof.
  intros Hk H. unfold group_by.
  assert (G : forall rows acc,
             Forall (fun r => key r = k) rows ->
             fold_left (fun gs r => add_to_groups eqb key r gs) rows
               [(k, acc)]
             = [(k, acc ++ rows)]).
  { clear rows H. induction rows as [|r rows IH]; intros acc H;
      cbn [fold_left].
    - rewrite app_nil_r. reflexivity.
    - inversion H as [|? ? Hr Hrows]; subst. cbn [add_to_groups].
      rewrite Hk, IH by exact Hrows. rewrite <- app_assoc. reflexivity. }
  destruct rows as [|r rows]; [reflexivity|].
  inversion H as [|? ? Hr Hrows]; subst.
  cbn [fold_left add_to_groups]. rewrite G by exact Hrows. reflexivity.
Qed.

Lemma date_filter_holds_rest (time_period : pystr)
  (start_date end_date : option pystr) (df : DateFilter)
  (params rest : list Param) (today : Date) :
  build_date_filter time_period start_date end_date = (df, params) ->
  date_filter_holds df (params ++ rest) today = None
  \/ exists in_window,
       date_filter_holds df (params ++ rest) today = Some (in_window, rest).
Proof.
  unfold build_date_filter.
  destruct start_date as [[|c sd]|], end_date as [[|d ed]|];
    repeat match goal with
      | |- context [if ?b then _ else _] => destruct b
      end;
    intros [= <- <-]; cbn [app date_filter_holds];
    try (right; eexists; reflexivity).
  destruct (date_in (c :: sd)), (date_in (d :: ed));
    (left; reflexivity) || (right; eexists; reflexivity).
Qed.

(** X6: without a fault, a request with a category filter gets back either
    nothing or one item, and that item carries the requested category; a
    row without category is in no such answer. *)
Theorem get_spending_data_one_category (time_period : pystr) (c : N)
  (category_filter : pystr) (start_date end_date : option pystr)
  (s : Store) (items : list SpendingItem) (total : Z) :
  fault_free s ->
  fst (get_spending_data time_period (Some (c :: category_filter))
         start_date end_date s) = Return (items, total) ->
  (items = [] /\ total = 0)
  \/ (items = [mkItem (c :: category_filter) total]
      /\ exists keep,
           (forall r, keep r = true ->
                      category r = Some (c :: category_filter))
           /\ total = amount_total (filter keep (processed_records s))
           /\ filter keep (processed_records s) <> []).
Proof.
  intros FF. rewrite get_spending_data_fault_free by exact FF.
  unfold build_where.
  destruct (build_date_filter time_period start_date end_date)
    as [df params] eqn:BD.
  unfold spending_query, spending_where.
  destruct (date_filter_holds_rest _ _ _ _ _ [PStr (c :: category_filter)]
              (current_date s) BD) as [->|[in_window ->]].
  - intros [= <- <-]. left. split; reflexivity.
  - set (keep := fun r => in_window r && category_is (c :: category_filter) r).
    assert (Hkeep : forall r, keep r = true ->
                              category r = Some (c :: category_filter)).
    { intros r H. unfold keep in H. apply andb_true_iff in H.
      destruct H as [_ H]. unfold category_is in H.
      destruct (category r) as [c'|]; [|discriminate].
      apply pystr_eqb_eq in H. subst. reflexivity. }
    rewrite (group_by_one_key (option_eqb pystr_eqb) category
               (Some (c :: category_filter)) (filter keep (processed_records s))).
    + destruct (filter keep (processed_records s)) as [|r rows] eqn:F.
      * intros [= <- <-]. left. split; reflexivity.
      * cbn [List.map fst snd coalesce_category]. unfold order_by.
        cbn [fold_right insert_row]. rewrite format_spending_map.
        cbn [List.map item_of fst snd].
        assert (T : Zsum [float_or_zero (sql_sum (List.map amount (r :: rows)))]
                    = amount_total (r :: rows)).
        { rewrite Zsum_one, sql_sum_float, List.map_map. reflexivity. }
        intros [= <- <-]. right. split.
        -- unfold item_of, Zsum. cbn [fst snd List.map fold_right].
           f_equal. f_equal. lia.
        -- exists keep. rewrite F. repeat split.
           ++ exact Hkeep.
           ++ exact T.
           ++ discriminate.
    + cbn [option_eqb]. apply pystr_eqb_refl.
    + apply Forall_forall. intros r H. apply filter_In in H.
      apply Hkeep, H.
Qed.


(** ** The balances *)

Lemma get_monthly_yearly_balances_cases (s : Store) :
  fst (get_monthly_yearly_balances s)
  = Return (List.map format_monthly (monthly_query (processed_records s)),
            List.map format_yearly (yearly_query (processed_records s)))
  \/ (fst (get_monthly_yearly_balances s) = Return ([], [])
      /\ ~ fault_free s).
Proof.
  apply (wp_elim get_monthly_yearly_balances
           (fun o _ =>
              o = Return
                    (List.map format_monthly
                       (monthly_query (processed_records s)),
                     List.map format_yearly
                       (yearly_query (processed_records s)))
              \/ (o = Return ([], []) /\ ~ fault_free s))).
  unfold get_monthly_yearly_balances, get_monthly_yearly_balances_try,
    fault_free.
  destruct s as [u p d f r]. cbn [processed_records faults].
  wp_run;
    repeat match goal with
      | E : Return _ = Return _ |- _ => injection E as <-
      | E : Return _ = Raise _ |- _ => discriminate E
      end;
    first [ left; reflexivity
          | right; split; [reflexivity | cbn; discriminate] ].
Qed.








Lemma insert_row_sorted {R} (before : R -> R -> bool) (x : R) (l : list R) :
  (forall a b, before a b = false -> before b a = true) ->
  Sorted (fun a b => before a b = true) l ->
  Sorted (fun a b => before a b = true) (insert_row before x l).
Proof.
  intros T. induction l as [|y l IH]; intros S; cbn [insert_row].
  - repeat constructor.
  - destruct (before x y) eqn:E.
    + constructor; [exact S | constructor; exact E].
    + apply Sorted_inv in S. destruct S as [S H].
      constructor; [apply IH; exact S|].
      destruct l as [|z l]; cbn [insert_row].
      * constructor. apply T, E.
      * destruct (before x z); constructor;
          [apply T, E | inversion H; assumption].
Qed.

Lemma order_by_sorted {R} (before : R -> R -> bool) (l : list R) :
  (forall a b, before a b = false -> before b a = true) ->
  Sorted (fun a b => before a b = true) (order_by before l).
Proof.
  intros T. induction l as [|x l IH]; [constructor|].
  unfold order_by in *. cbn [fold_right].
  apply insert_row_sorted; assumption.
Qed.

Lemma add_to_groups_keys {K R} (eqb : K -> K -> bool) (key : R -> K)
  (r : R) (groups : list (K * list R)) :
  List.map fst (add_to_groups eqb key r groups)
  = if existsb (eqb (key r)) (List.map fst groups)
    then List.map fst groups
    else List.map fst groups ++ [key r].
Proof.
  induction groups as [|[k rs] groups IH]; [reflexivity|].
  cbn [add_to_groups List.map fst existsb].
  destruct (eqb (key r) k); cbn [orb List.map fst]; [reflexivity|].
  rewrite IH. destruct (existsb _ _); reflexivity.
Qed.

Lemma group_by_keys_nodup {K R} (eqb : K -> K -> bool) (key : R -> K)
  (rows : list R) :
  (forall a b, eqb a b = true <-> a = b) ->
  NoDup (List.map fst (group_by eqb key rows)).
Proof.
  intros Heq. unfold group_by.
  assert (G : forall groups,
             NoDup (List.map fst groups) ->
             NoDup
               (List.map fst
                  (fold_left (fun gs r => add_to_groups eqb key r gs) rows
                     groups))).
  { induction rows as [|r rows IH]; intros groups ND; cbn [fold_left];
      [exact ND|].
    apply IH. rewrite add_to_groups_keys.
    destruct (existsb _ _) eqn:E; [exact ND|].
    apply NoDup_app; [exact ND | repeat constructor; intros [] |].
    intros k Hk [<-|[]].
    assert (X : existsb (eqb (key r)) (List.map fst groups) = true).
    { apply existsb_exists. exists (key r). split; [exact Hk|].
      apply Heq. reflexivity. }
    congruence. }
  apply G. constructor.
Qed.

Lemma sorted_distinct_map {A B K} (before : A -> A -> bool) (key : A -> K)
  (later : B -> B -> Prop) (g : A -> B) (l : list A) :
  (forall a b, before a b = true -> key a <> key b -> later (g a) (g b)) ->
  Sorted (fun a b => before a b = true) l ->
  NoDup (List.map key l) ->
  Sorted later (List.map g l).
Proof.
  intros L. induction l as [|a l IH]; intros S ND; [constructor|].
  apply Sorted_inv in S. destruct S as [S H].
  inversion ND as [|? ? Ha NDl]; subst.
  cbn [List.map]. constructor; [apply IH; assumption|].
  destruct l as [|b l]; cbn [List.map]; constructor.
  inversion H; subst. apply L; [assumption|].
  intros E. apply Ha. left. symmetry. exact E.
Qed.

(** X10: the monthly points come latest month first and the yearly points
    latest year first, and no month and no year appears twice. *)
Theorem balances_latest_first (s : Store) :
  exists monthly yearly,
    fst (get_monthly_yearly_balances s) = Return (monthly, yearly)
    /\ Sorted later_month monthly
    /\ Sorted later_year yearly.
Proof.
  destruct (get_monthly_yearly_balances_cases s) as [E|[E _]]; rewrite E;
    [|exists [], []; repeat split; constructor].
  do 2 eexists. split; [reflexivity|]. split.
  - unfold monthly_query.
    eapply (sorted_distinct_map _
              (fun row : Z * Z * option Z * pystr => fst (fst row))).
    2: { apply order_by_sorted.
         intros [[[ya ma] ta] sa] [[[yb mb] tb] sb] B.
         apply orb_false_iff in B. destruct B as [Y M].
         apply Z.ltb_ge in Y.
         destruct (Z.ltb_spec ya yb) as [|Y']; [reflexivity|].
         assert (ya = yb) as -> by lia.
         rewrite Z.eqb_refl in *. cbn [andb orb] in *.
         apply Z.leb_gt in M. apply Z.leb_le. lia. }
    + intros [[[ya ma] ta] sa] [[[yb mb] tb] sb] B NE.
      cbn [fst snd] in NE. unfold later_month.
      cbn [format_monthly mb_year mb_month].
      destruct (Z.ltb_spec yb ya); [left; assumption|].
      cbn [orb] in B. apply andb_true_iff in B. destruct B as [Y M].
      apply Z.eqb_eq in Y. apply Z.leb_le in M. right.
      split; [exact Y|]. subst.
      destruct (Z.eq_dec mb ma); [subst; exfalso; apply NE; reflexivity | lia].
    + apply (Permutation_NoDup
               (l := List.map
                       (fun row : Z * Z * option Z * pystr => fst (fst row))
                       (List.map
                          (fun g : Z * Z * list ProcessedRecord =>
                             let total := sql_sum (List.map amount (snd g)) in
                             (fst (fst g), snd (fst g), total,
                              balance_status total))
                          (group_by
                             (fun a b : Z * Z =>
                                (fst a =? fst b) && (snd a =? snd b))
                             (fun r => (year (transaction_date r),
                                        month (transaction_date r)))
                             (processed_records s))))).
      * apply Permutation_map, Permutation_sym, order_by_perm.
      * rewrite List.map_map.
        rewrite (List.map_ext _ fst) by (intros [[y m] rows]; reflexivity).
        apply group_by_keys_nodup. intros [a1 a2] [b1 b2]. cbn [fst snd].
        rewrite andb_true_iff, !Z.eqb_eq.
        split; [intros [-> ->]; reflexivity | intros [= -> ->]; auto].
  - unfold yearly_query.
    eapply (sorted_distinct_map _
              (fun row : Z * option Z * pystr => fst (fst row))).
    2: { apply order_by_sorted.
         intros [[ya ta] sa] [[yb tb] sb] B. cbn [fst snd] in *.
         apply Z.leb_gt in B. apply Z.leb_le. lia. }
    + intros [[ya ta] sa] [[yb tb] sb] B NE.
      cbn [fst snd] in *. unfold later_year.
      cbn [format_yearly yb_year]. apply Z.leb_le in B. lia.
    + apply (Permutation_NoDup
               (l := List.map
                       (fun row : Z * option Z * pystr => fst (fst row))
                       (List.map
                          (fun g : Z * list ProcessedRecord =>
                             let total := sql_sum (List.map amount (snd g)) in
                             (fst g, total, balance_status total))
                          (group_by Z.eqb
                             (fun r => year (transaction_date r))
                             (processed_records s))))).
      * apply Permutation_map, Permutation_sym, order_by_perm.
      * rewrite List.map_map.
        rewrite (List.map_ext _ fst) by (intros [y rows]; reflexivity).
        apply group_by_keys_nodup. intros a b. apply Z.eqb_eq.
Qed.

(** ** The two mutations, further *)

(** X11: a form that fails the input checks is answered with status 400
    before any driver call: the store, its fault schedule and the list of
    received statements included, is exactly as before. *)
Theorem rejected_forms_touch_nothing (form : Args) (s : Store) :
  (~ update_accepted form ->
   update_categories form s
   = (Return (py "Missing record IDs or category", 400), s)
   \/ update_categories form s
      = (Return (py "No valid record IDs provided", 400), s))
  /\ (~ delete_accepted form ->
      delete_records form s = (Return (py "Missing record IDs", 400), s)
      \/ delete_records form s
         = (Return (py "No valid record IDs provided", 400), s)).
Proof.
  unfold update_accepted, delete_accepted, update_categories, delete_records.
  split; intros H.
  - destruct (args_get form (py "record_ids")) as [[|c ids]|];
      destruct (args_get form (py "new_category")) as [[|d cat]|];
      try (left; reflexivity).
    destruct (parse_record_ids (c :: ids)) as [|id0 parsed];
      [right; reflexivity|].
    exfalso. apply H. discriminate.
  - destruct (args_get form (py "record_ids")) as [[|c ids]|];
      try (left; reflexivity).
    destruct (parse_record_ids (c :: ids)) as [|id0 parsed];
      [right; reflexivity|].
    exfalso. apply H. discriminate.
Qed.


(** An accepted deletion without a fault, in full. *)
Lemma delete_records_run (form : Args) (s : Store) (c : N) (ids : pystr) :
  fault_free s ->
  args_get form (py "record_ids") = Some (c :: ids) ->
  parse_record_ids (c :: ids) <> [] ->
  let s' := snd (delete_records form s) in
  processed_records s'
  = filter
      (fun r => negb (str_in (record_id_bank r) (parse_record_ids (c :: ids))))
      (processed_records s)
  /\ unprocessed_records s' = unprocessed_records s
  /\ current_date s' = current_date s
  /\ fault_free s'.
Proof.
  intros FF Hids Hparsed. cbv zeta.
  apply (wp_elim (delete_records form)
           (fun _ s' =>
              processed_records s'
              = filter
                  (fun r =>
                     negb (str_in (record_id_bank r)
                             (parse_record_ids (c :: ids))))
                  (processed_records s)
              /\ unprocessed_records s' = unprocessed_records s
              /\ current_date s' = current_date s
              /\ fault_free s')).
  unfold delete_records. rewrite Hids.
  destruct (parse_record_ids (c :: ids)) as [|id0 parsed];
    [contradiction|].
  destruct s as [u p dt f r]. unfold fault_free in *. cbn [faults] in FF.
  wp_run; no_fault;
    match goal with
    | E : delete_query _ _ = Return _ |- _ => injection E as <-
    end; cbn [faults]; repeat split; assumption || reflexivity.
Qed.



Lemma filter_twice {A} (f : A -> bool) (l : list A) :
  filter f (filter f l) = filter f l.
Proof.
  induction l as [|x l IH]; [reflexivity|].
  cbn [filter]. destruct (f x) eqn:E; [|exact IH].
  cbn [filter]. rewrite E, IH. reflexivity.
Qed.

(** X13: an accepted deletion without a fault removes every row whose id is
    named in the form and keeps all other rows in their order; sending the
    same form again removes nothing more. *)
Theorem delete_records_effect (form : Args) (s : Store) (c : N)
  (ids : pystr) :
  fault_free s ->
  args_get form (py "record_ids") = Some (c :: ids) ->
  parse_record_ids (c :: ids) <> [] ->
  let s' := snd (delete_records form s) in
  let named r := In (record_id_bank r) (parse_record_ids (c :: ids)) in
  Forall (fun r => ~ named r) (processed_records s')
  /\ (forall r, In r (processed_records s')
                <-> In r (processed_records s) /\ ~ named r)
  /\ (exists keep,
        processed_records s' = filter keep (processed_records s))
  /\ unprocessed_records s' = unprocessed_records s
  /\ processed_records (snd (delete_records form s'))
     = processed_records s'.
Proof.
  intros FF Hids Hparsed. cbv zeta.
  destruct (delete_records_run form s c ids FF Hids Hparsed)
    as (T & U & _ & FF').
  destruct (delete_records_run form _ c ids FF' Hids Hparsed) as (T' & _).
  rewrite T', T. clear T' FF'.
  assert (K : forall r,
             negb (str_in (record_id_bank r) (parse_record_ids (c :: ids)))
             = true
             <-> ~ In (record_id_bank r) (parse_record_ids (c :: ids))).
  { intros r. rewrite negb_true_iff, <- str_in_In.
    destruct (str_in _ _); split; congruence. }
  repeat split.
  - apply Forall_forall. intros r H. apply filter_In in H. apply K, H.
  - apply filter_In in H. apply H.
  - apply filter_In in H. apply K, H.
  - intros [H N]. apply filter_In. split; [exact H | apply K, N].
  - eexists. reflexivity.
  - exact U.
  - apply filter_twice.
Qed.





(** X15: the commit comes before the two [close] calls, which are still
    inside the [try] block; when one of them raises, the endpoint answers
    500 with the error text although the change is already in the store. *)
Theorem mutation_failure_after_commit (form : Args) (s : Store)
  (e : pystr) (c : N) (ids : pystr) :
  first_fault 4 (faults s) = None ->
  first_fault 6 (faults s) = Some e ->
  args_get form (py "record_ids") = Some (c :: ids) ->
  parse_record_ids (c :: ids) <> [] ->
  (fst (delete_records form s)
   = Return (py "Error deleting records: " ++ e, 500)
   /\ processed_records (snd (delete_records form s))
      = filter
          (fun r =>
             negb (str_in (record_id_bank r) (parse_record_ids (c :: ids))))
          (processed_records s))
  /\ (forall (d : N) (new_category : pystr),
        args_get form (py "new_category") = Some (d :: new_category) ->
        fst (update_categories form s)
        = Return (py "Error updating categories: " ++ e, 500)
        /\ processed_records (snd (update_categories form s))
           = List.map
               (recategorize (d :: new_category)
                  (parse_record_ids (c :: ids)))
               (processed_records s)).
Proof.
  intros H4 H6 Hids Hparsed. split.
  - apply (wp_elim (delete_records form)
             (fun o s' =>
                o = Return (py "Error deleting records: " ++ e, 500)
                /\ processed_records s'
                   = filter
                       (fun r =>
                          negb (str_in (record_id_bank r)
                                  (parse_record_ids (c :: ids))))
                       (processed_records s))).
    unfold delete_records. rewrite Hids.
    destruct (parse_record_ids (c :: ids)) as [|id0 parsed];
      [contradiction|].
    destruct s as [u p dt f r]. cbn [faults] in H4, H6.
    wp_run; cbn in H4, H6; try discriminate;
      match goal with
      | E : delete_query _ _ = Return _ |- _ => injection E as <-
      end; injection H6 as ->; split; reflexivity.
  - intros d new_category Hcat.
    apply (wp_elim (update_categories form)
             (fun o s' =>
                o = Return (py "Error updating categories: " ++ e, 500)
                /\ processed_records s'
                   = List.map
                       (recategorize (d :: new_category)
                          (parse_record_ids (c :: ids)))
                       (processed_records s))).
    unfold update_categories. rewrite Hids, Hcat.
    destruct (parse_record_ids (c :: ids)) as [|id0 parsed];
      [contradiction|].
    destruct s as [u p dt f r]. cbn [faults] in H4, H6.
    wp_run; cbn in H4, H6; try discriminate;
      match goal with
      | E : update_query _ _ = Return _ |- _ => injection E as <-
      end; injection H6 as ->; split; reflexivity.
Qed.

(** ** The views *)

Lemma get_spending_data_run (time_period : pystr)
  (category_filter start_date end_date : option pystr) (s : Store) :
  exists items total s',
    get_spending_data time_period category_filter start_date end_date s
    = (Return (items, total), s')
    /\ tables s' = tables s.
Proof.
  assert (W : wp (get_spending_data time_period category_filter start_date
                    end_date)
                (fun o s' =>
                   (exists items total, o = Return (items, total))
                   /\ tables s' = tables s) s).
  { unfold get_spending_data, get_spending_data_try.
    destruct (build_where _ _ _ _) as [[date_filter with_category] params].
    destruct s as [u p d f r].
    wp_run; (split; [eauto | reflexivity]). }
  unfold wp in W. destruct W as ((items & total & E) & T).
  exists items, total, (snd (get_spending_data time_period category_filter
                             start_date end_date s)).
  split; [|exact T]. rewrite <- E. apply surjective_pairing.
Qed.

Lemma get_monthly_yearly_balances_run (s : Store) :
  exists monthly yearly s',
    get_monthly_yearly_balances s = (Return (monthly, yearly), s')
    /\ tables s' = tables s.
Proof.
  assert (W : wp get_monthly_yearly_balances
                (fun o s' =>
                   (exists monthly yearly, o = Return (monthly, yearly))
                   /\ tables s' = tables s) s).
  { unfold get_monthly_yearly_balances, get_monthly_yearly_balances_try.
    destruct s as [u p d f r].
    wp_run; (split; [eauto | reflexivity]). }
  unfold wp in W. destruct W as ((monthly & yearly & E) & T).
  exists monthly, yearly, (snd (get_monthly_yearly_balances s)).
  split; [|exact T]. rewrite <- E. apply surjective_pairing.
Qed.

Lemma index_pagination_bounds (args : Args) :
  let '(monthly_page, yearly_page, per_page, monthly_offset, yearly_offset) :=
    index_pagination args in
  1 <= per_page <= 100.
Proof.
  unfold index_pagination.
  repeat match goal with
    | |- context [?a <? ?b] => destruct (Z.ltb_spec a b)
    end; cbn [orb]; lia.
Qed.

Lemma slice_length {A} (l : list A) (off n : Z) :
  0 <= n -> Z.of_nat (List.length (slice l off n)) <= n.
Proof.
  intros H. unfold slice.
  pose proof (firstn_le_length (Z.to_nat n) (skipn (Z.to_nat off) l)).
  lia.
Qed.

Lemma slice_In {A} (l : list A) (off n : Z) (x : A) :
  In x (slice l off n) -> In x l.
Proof.
  unfold slice. intros H. apply In_firstn in H.
  rewrite <- (firstn_skipn (Z.to_nat off) l). apply in_or_app. right. exact H.
Qed.

(** X16: the dashboard never fails: whatever the request and whatever
    data-access faults occur, [index] renders [index.html]; the page size it
    shows lies in [1, 100], neither list of balances is longer than that,
    and the total beside the spending items is their sum. *)
Theorem index_always_renders (args : Args) (s : Store) :
  exists context,
    fst (index args s) = Return (Rendered (py "index.html") context)
    /\ 1 <= ix_per_page context <= 100
    /\ Z.of_nat (List.length (ix_monthly_balances context))
       <= ix_per_page context
    /\ Z.of_nat (List.length (ix_yearly_balances context))
       <= ix_per_page context
    /\ ix_total_spending context
       = Zsum (List.map item_amount (ix_spending_data context)).
Proof.
  unfold index, bind.
  destruct (get_spending_data_run
              (args_get_default args (py "time_period") (py "month"))
              (args_get args (py "category")) (args_get args (py "start_date"))
              (args_get args (py "end_date")) s)
    as (items & total & s1 & E1 & _).
  pose proof (get_spending_data_total
                (args_get_default args (py "time_period") (py "month"))
                (args_get args (py "category"))
                (args_get args (py "start_date"))
                (args_get args (py "end_date")) s items total) as Sum.
  rewrite E1 in *. cbn [fst] in Sum. specialize (Sum eq_refl).
  destruct (get_monthly_yearly_balances_run s1)
    as (monthly & yearly & s2 & E2 & _).
  rewrite E2.
  pose proof (index_pagination_bounds args) as B.
  destruct (index_pagination args) as [[[[mp yp] pp] mo] yo].
  cbn [ret fst]. eexists. split; [reflexivity|].
  cbn [ix_per_page ix_monthly_balances ix_yearly_balances ix_total_spending
       ix_spending_data].
  repeat split; try lia; try (apply slice_length; lia). exact Sum.
Qed.

(** X17: the three views only read: after [index], [admin] or
    [record_transformer], with or without faults, both tables are what they
    were. *)
Theorem views_leave_tables (args : Args) (s : Store) :
  tables (snd (index args s)) = tables s
  /\ tables (snd (admin args s)) = tables s
  /\ tables (snd (record_transformer args s)) = tables s.
Proof.
  split; [|split].
  - unfold index, bind.
    destruct (get_spending_data_run
                (args_get_default args (py "time_period") (py "month"))
                (args_get args (py "category"))
                (args_get args (py "start_date"))
                (args_get args (py "end_date")) s)
      as (items & total & s1 & E1 & T1).
    rewrite E1.
    destruct (get_monthly_yearly_balances_run s1)
      as (monthly & yearly & s2 & E2 & T2).
    rewrite E2.
    destruct (index_pagination args) as [[[[mp yp] pp] mo] yo].
    cbn [ret snd]. congruence.
  - apply (wp_elim (admin args) (fun _ s' => tables s' = tables s)).
    unfold admin.
    destruct (page_pagination args) as [[page per_page] offset].
    destruct s as [u p d f r].
    wp_run; reflexivity.
  - apply (wp_elim (record_transformer args)
             (fun _ s' => tables s' = tables s)).
    unfold record_transformer.
    destruct (page_pagination args) as [[page per_page] offset].
    destruct (sort_parameters args) as [sort_by sort_order].
    destruct (build_filters _ _) as [where_clauses params].
    destruct s as [u p d f r].
    wp_run; reflexivity.
Qed.

Lemma date_leb_total (a b : Date) : date_leb a b = false -> date_leb b a = true.
Proof.
  unfold date_leb.
  destruct (Z.ltb_spec (year a) (year b)), (Z.ltb_spec (year b) (year a)),
    (Z.eqb_spec (year a) (year b)), (Z.eqb_spec (year b) (year a)),
    (Z.ltb_spec (month a) (month b)), (Z.ltb_spec (month b) (month a)),
    (Z.eqb_spec (month a) (month b)), (Z.eqb_spec (month b) (month a)),
    (Z.leb_spec (day a) (day b)), (Z.leb_spec (day b) (day a));
    cbn; try reflexivity; try discriminate; lia.
Qed.

Lemma Sorted_skipn {A} (R : A -> A -> Prop) (n : nat) (l : list A) :
  Sorted R l -> Sorted R (skipn n l).
Proof.
  revert l; induction n as [|n IH]; intros l S; [exact S|].
  destruct l as [|x l]; [exact S|]. cbn [skipn]. apply IH.
  apply Sorted_inv in S. apply S.
Qed.

Lemma Sorted_firstn {A} (R : A -> A -> Prop) (n : nat) (l : list A) :
  Sorted R l -> Sorted R (firstn n l).
Proof.
  revert l; induction n as [|n IH]; intros l S; [constructor|].
  destruct l as [|x l]; [constructor|]. cbn [firstn].
  apply Sorted_inv in S. destruct S as [S H].
  constructor; [apply IH; exact S|].
  destruct l as [|y l]; [rewrite firstn_nil; constructor|].
  destruct n; cbn [firstn]; constructor. inversion H; assumption.
Qed.

(** X18: [admin] answers in one of two ways.  Either a plain 500 response
    whose text starts with the fixed prefix, which is what any fault at one
    of its eight driver calls leads to; or the page [admin.html], whose
    count is the number of unprocessed rows, whose page count is the
    ceiling expression on it, and whose rows are rows of the table, at most
    [per_page] of them, newest transaction first. *)
Theorem admin_result (args : Args) (s : Store) :
  let page := fst (fst (page_pagination args)) in
  let per_page := snd (fst (page_pagination args)) in
  let total_count := Z.of_nat (List.length (unprocessed_records s)) in
  ((exists e,
      fst (admin args s)
      = Return (Plain (py "Error fetching records: " ++ e) 500))
   \/ (exists records,
         fst (admin args s)
         = Return
             (Rendered (py "admin.html")
                (mkAdminContext records page per_page
                   (total_pages_of total_count per_page) total_count))
         /\ Forall (fun r => In r (unprocessed_records s)) records
         /\ Z.of_nat (List.length records) <= per_page
         /\ Sorted not_older records))
  /\ (forall e, first_fault 8 (faults s) = Some e ->
                exists e',
                  fst (admin args s)
                  = Return (Plain (py "Error fetching records: " ++ e') 500)).
Proof.
  cbv zeta.
  assert (B : 1 <= snd (fst (page_pagination args)) <= 100).
  { unfold page_pagination.
    repeat match goal with
      | |- context [?a <? ?b] => destruct (Z.ltb_spec a b)
      end; cbn [orb fst snd]; lia. }
  unfold admin.
  destruct (page_pagination args) as [[page per_page] offset].
  cbn [fst snd] in *.
  split.
  - apply (wp_elim
             (try_except _ _)
             (fun o _ =>
                (exists e,
                   o = Return (Plain (py "Error fetching records: " ++ e) 500))
                \/ (exists records,
                      o = Return
                            (Rendered (py "admin.html")
                               (mkAdminContext records page per_page
                                  (total_pages_of
                                     (Z.of_nat
                                        (List.length (unprocessed_records s)))
                                     per_page)
                                  (Z.of_nat
                                     (List.length (unprocessed_records s)))))
                      /\ Forall (fun r => In r (unprocessed_records s)) records
                      /\ Z.of_nat (List.length records) <= per_page
                      /\ Sorted not_older records))).
    destruct s as [u p d f r]. cbn [unprocessed_records].
    wp_run; try (left; eexists; reflexivity);
      repeat match goal with
        | E : Return _ = Return _ |- _ => injection E as <-
        end;
      right; eexists; (split; [reflexivity|]);
      match goal with
      | E : admin_query _ _ = Return _ |- _ =>
          unfold admin_query, limit_offset in E;
          destruct (_ && _) in E; [|discriminate E];
          injection E as <-
      end;
      (split; [apply Forall_forall; intros x H; apply slice_In in H;
               apply (Permutation_in _ (order_by_perm _ _)) in H; exact H|]);
      (split; [apply slice_length; lia|]);
      unfold slice; apply Sorted_firstn, Sorted_skipn;
      apply (order_by_sorted
               (fun a b => date_leb (u_transaction_date b)
                             (u_transaction_date a)));
      intros a b; apply date_leb_total.
  - intros e H.
    apply (wp_elim
             (try_except _ _)
             (fun o _ =>
                exists e',
                  o = Return (Plain (py "Error fetching records: " ++ e') 500))).
    destruct s as [u p d f r]. cbn [faults] in H.
    wp_run; cbn in H; try discriminate; eexists; reflexivity.
Qed.

Lemma group_by_keys_In {K R} (eqb : K -> K -> bool) (key : R -> K)
  (rows : list R) (k : K) :
  (forall a b, eqb a b = true <-> a = b) ->
  In k (List.map fst (group_by eqb key rows))
  <-> exists r, In r rows /\ key r = k.
Proof.
  intros Heq. unfold group_by.
  assert (G : forall groups,
             In k (List.map fst
                     (fold_left (fun gs r => add_to_groups eqb key r gs) rows
                        groups))
             <-> In k (List.map fst groups)
                 \/ exists r, In r rows /\ key r = k).
  { induction rows as [|r rows IH]; intros groups; cbn [fold_left].
    - split; [left; assumption | intros [H|(r & [] & _)]; exact H].
    - rewrite IH, add_to_groups_keys.
      assert (S : In k (if existsb (eqb (key r)) (List.map fst groups)
                        then List.map fst groups
                        else List.map fst groups ++ [key r])
                  <-> In k (List.map fst groups) \/ key r = k).
      { destruct (existsb _ _) eqn:E.
        - split; [left; assumption|]. intros [H|<-]; [exact H|].
          apply existsb_exists in E. destruct E as (k' & Hk' & E).
          apply Heq in E. subst. exact Hk'.
        - rewrite in_app_iff. cbn [In]. tauto. }
      rewrite S. split.
      + intros [[H|H]|(r' & H & E)]; eauto.
        * right. exists r. split; [left; reflexivity | exact H].
        * right. exists r'. split; [right; exact H | exact E].
      + intros [H|(r' & [<-|H] & E)]; eauto. }
  rewrite G. cbn [List.map In]. split.
  - intros [[]|H]; exact H.
  - intros H. right. exact H.
Qed.

Lemma category_query_spec (table : list ProcessedRecord) :
  NoDup (category_query table)
  /\ forall c, In c (category_query table)
               <-> exists r, In r table /\ category r = Some c.
Proof.
  unfold category_query. split.
  - apply (Permutation_NoDup (Permutation_sym (order_by_perm _ _))).
    apply group_by_keys_nodup. apply pystr_eqb_eq.
  - intros c. split.
    + intros H. apply (Permutation_in _ (order_by_perm _ _)) in H.
      apply (group_by_keys_In pystr_eqb) in H; [|apply pystr_eqb_eq].
      destruct H as (c' & H & ->). apply in_flat_map in H.
      destruct H as (r & Hr & H). exists r. split; [exact Hr|].
      destruct (category r) as [x|]; [|destruct H].
      destruct H as [->|[]]. reflexivity.
    + intros (r & Hr & E).
      apply (Permutation_in _ (Permutation_sym (order_by_perm _ _))).
      apply (group_by_keys_In pystr_eqb); [apply pystr_eqb_eq|].
      exists c. split; [|reflexivity]. apply in_flat_map.
      exists r. split; [exact Hr|]. rewrite E. left. reflexivity.
Qed.

Lemma base_query_rows (category_filter search_description : option pystr)
  (where_clauses : list Clause) (params : list Param)
  (sort_by sort_order : pystr) (limit offset : Z)
  (table rows : list ProcessedRecord) :
  build_filters category_filter search_description = (where_clauses, params) ->
  0 <= limit ->
  base_query where_clauses sort_by sort_order
    (params ++ [PInt limit; PInt offset]) table = Return rows ->
  Forall (fun r => In r table
                   /\ matches_filters category_filter search_description r)
    rows
  /\ Z.of_nat (List.length rows) <= limit.
Proof.
  intros BF L.
  pose proof (where_holds_filters category_filter search_description
                [PInt limit; PInt offset]) as W.
  rewrite BF in W. destruct W as (holds & W & M).
  unfold base_query. rewrite W.
  destruct (sort_before sort_by sort_order) as [before|]; [|discriminate].
  unfold limit_offset. destruct (_ && _); [|discriminate].
  intros [= <-]. split; [|apply slice_length; exact L].
  apply Forall_forall. intros r H. apply slice_In in H.
  apply (Permutation_in _ (order_by_perm _ _)) in H.
  apply filter_In in H. destruct H as [H K]. split; [exact H|].
  apply M. exact K.
Qed.

(** X19: [record_transformer] answers with a plain 500 response or with its
    page.  On the page every listed row is a row of [processed_records]
    that passes the requested filters, there are at most [per_page] rows,
    and the category list for the filter control holds every category that
    occurs in the table, each once, and nothing else. *)
Theorem record_transformer_result (args : Args) (s : Store) :
  (exists e,
     fst (record_transformer args s)
     = Return (Plain (py "Error fetching records: " ++ e) 500))
  \/ (exists context,
        fst (record_transformer args s)
        = Return (Rendered (py "record_transformer.html") context)
        /\ Forall
             (fun r =>
                In r (processed_records s)
                /\ matches_filters (args_get args (py "category"))
                     (args_get args (py "search")) r)
             (rt_records context)
        /\ 1 <= rt_per_page context <= 100
        /\ Z.of_nat (List.length (rt_records context)) <= rt_per_page context
        /\ NoDup (rt_categories context)
        /\ (forall c,
              In c (rt_categories context)
              <-> exists r, In r (processed_records s)
                            /\ category r = Some c)).
Proof.
  assert (B : 1 <= snd (fst (page_pagination args)) <= 100).
  { unfold page_pagination.
    repeat match goal with
      | |- context [?a <? ?b] => destruct (Z.ltb_spec a b)
      end; cbn [orb fst snd]; lia. }
  apply (wp_elim (record_transformer args)
           (fun o _ =>
              (exists e,
                 o = Return (Plain (py "Error fetching records: " ++ e) 500))
              \/ (exists context,
                    o = Return (Rendered (py "record_transformer.html")
                                  context)
                    /\ Forall
                         (fun r =>
                            In r (processed_records s)
                            /\ matches_filters (args_get args (py "category"))
                                 (args_get args (py "search")) r)
                         (rt_records context)
                    /\ 1 <= rt_per_page context <= 100
                    /\ Z.of_nat (List.length (rt_records context))
                       <= rt_per_page context
                    /\ NoDup (rt_categories context)
                    /\ (forall c,
                          In c (rt_categories context)
                          <-> exists r, In r (processed_records s)
                                        /\ category r = Some c)))).
  unfold record_transformer.
  destruct (page_pagination args) as [[page per_page] offset].
  destruct (sort_parameters args) as [sort_by sort_order].
  destruct (build_filters _ _) as [where_clauses params] eqn:BF.
  cbn [fst snd] in B.
  destruct s as [u p d f r]. cbn [processed_records].
  destruct (category_query_spec p) as [ND CI].
  assert (L : 0 <= per_page) by lia.
  wp_run; try (left; eexists; reflexivity);
    repeat match goal with
      | E : Return _ = Return _ |- _ => injection E as <-
      end;
    right; eexists; (split; [reflexivity|]);
    cbn [rt_records rt_per_page rt_categories];
    match goal with
    | E : base_query _ _ _ _ _ = Return _ |- _ =>
        destruct (base_query_rows _ _ _ _ _ _ _ _ _ _ BF L E)
          as [Rows Len]
    end;
    repeat split; try assumption; try lia; apply CI; assumption.
Qed.

(** ** Pages *)

Lemma chunks_cover {A} (p m : nat) (l : list A) :
  (List.length l <= m * p)%nat ->
  flat_map (fun k => firstn p (skipn (k * p) l)) (seq 0 m) = l.
Proof.
  revert l; induction m as [|m IH]; intros l H.
  - destruct l; [reflexivity | cbn in H; lia].
  - cbn [seq flat_map]. rewrite <- seq_shift, flat_map_concat_map, List.map_map.
    rewrite <- flat_map_concat_map.
    rewrite (flat_map_ext _ (fun k => firstn p (skipn (k * p) (skipn p l)))).
    + rewrite IH.
      * cbn [Nat.mul skipn]. apply firstn_skipn.
      * rewrite length_skipn. lia.
    + intros k. rewrite skipn_skipn. f_equal. f_equal. cbn [Nat.mul]. lia.
Qed.

(** X20: the pages of a list partition it.  With a page size of at least 1,
    the pages 1 to [total_pages], taken with offset [(page - 1) * per_page]
    and put one after the other, are the list itself, and every page after
    the last is empty. *)
Theorem pages_partition_the_list {A} (l : list A) (per_page : Z) :
  1 <= per_page ->
  let total_pages := total_pages_of (Z.of_nat (List.length l)) per_page in
  flat_map (fun page => slice l ((Z.of_nat page - 1) * per_page) per_page)
    (seq 1 (Z.to_nat total_pages))
  = l
  /\ forall page, total_pages < page ->
                  slice l ((page - 1) * per_page) per_page = [].
Proof.
  intros P. cbv zeta.
  pose proof (total_pages_of_bounds (Z.of_nat (List.length l)) per_page
                ltac:(lia)) as [Lo Hi].
  set (T := total_pages_of (Z.of_nat (List.length l)) per_page) in *.
  assert (T0 : 0 <= T) by nia.
  split.
  - rewrite <- seq_shift, flat_map_concat_map, List.map_map,
      <- flat_map_concat_map.
    rewrite (flat_map_ext _
               (fun k => firstn (Z.to_nat per_page)
                           (skipn (k * Z.to_nat per_page) l))).
    + apply chunks_cover. nia.
    + intros k. unfold slice. f_equal. f_equal. nia.
  - intros page H. unfold slice. rewrite skipn_all2; [apply firstn_nil|].
    nia.
Qed.


End App.

(** * The properties on concrete requests *)

Example color_of_Food : get_category_color (py "Food") = py "#FFCE56".
Proof. reflexivity. Qed.

Example color_of_empty : get_category_color [] = py "#FF6384".
Proof. reflexivity. Qed.

Example page_defaults :
  page_pagination sample_int [] = (1, 10, 0).
Proof. reflexivity. Qed.

Example page_three_of_25 :
  page_pagination sample_int [(py "page", py "3"); (py "per_page", py "25")]
  = (3, 25, 50).
Proof. reflexivity. Qed.

Example page_size_too_large :
  page_pagination sample_int [(py "page", py "0"); (py "per_page", py "101")]
  = (1, 10, 0).
Proof. reflexivity. Qed.

Example page_size_not_numeric :
  page_pagination sample_int [(py "per_page", py "ten")] = (1, 10, 0).
Proof. reflexivity. Qed.

Example sort_by_drop_table :
  sort_parameters [(py "sort_by", py "drop table"); (py "sort_order", py "ASC")]
  = (py "transaction_date", py "desc").
Proof. reflexivity. Qed.

Example sort_by_amount_asc :
  sort_parameters [(py "sort_by", py "amount"); (py "sort_order", py "asc")]
  = (py "amount", py "asc").
Proof. reflexivity. Qed.

Example seven_rows_by_three : total_pages_of 7 3 = 3.
Proof. reflexivity. Qed.

Example recategorize_sample :
  update_categories sample_form (sample_store [])
  = (Return (py "Successfully updated 3 records to category 'X'", 200),
     mkStore []
       [ sample_row (py "A") (Some (py "X")) (-50);
         sample_row (py "B") (Some (py "X")) (-30);
         sample_row (py "Z") None 200 ]
       (mkDate 2024 1 20) []
       [ (update_query_sql,
          [PStr (py "X"); PList [py "A"; py "B"; py "C"]]) ]).
Proof. vm_compute. reflexivity. Qed.

Example delete_sample :
  processed_records
    (snd (delete_records [(py "record_ids", py " Z ,A")] (sample_store [])))
  = [ sample_row (py "B") (Some (py "Food")) (-30) ].
Proof. vm_compute. reflexivity. Qed.

Example spending_of_Food_only :
  fst (get_spending_data sample_date_in sample_iso_week (py "all")
         (Some (py "Food")) None None (sample_store []))
  = Return ([ mkItem (py "Food") (-80) ], -80).
Proof. vm_compute. reflexivity. Qed.

Example spending_after_lost_connection :
  fst (get_spending_data sample_date_in sample_iso_week (py "all")
         None None None
         (sample_store [None; None; Some (py "connection lost")]))
  = Return ([], 0).
Proof. vm_compute. reflexivity. Qed.

Example balances_sample :
  fst (get_monthly_yearly_balances (sample_store []))
  = Return ([ mkMonthly 2024 1 (py "January") 120 (py "positive") ],
            [ mkYearly 2024 120 (py "positive") ]).
Proof. vm_compute. reflexivity. Qed.

Example browse_sample :
  let args :=
    [ (py "category", py "Food"); (py "search", py "PAY");
      (py "sort_by", py "amount"); (py "sort_order", py "asc");
      (py "per_page", py "1"); (py "page", py "2") ] in
  let r :=
    record_transformer sample_int sample_ilike sample_text_leb args
      (sample_store []) in
  fst r
  = Return
      (Rendered (py "record_transformer.html")
         (mkTransformerContext
            [ sample_row (py "B") (Some (py "Food")) (-30) ] 2 1 2 2
            [ py "Food" ] (Some (py "Food")) (Some (py "PAY"))
            (py "amount") (py "asc")))
  /\ received (snd r)
     = [ (py "SELECT DISTINCT category FROM processed_records WHERE category IS NOT NULL ORDER BY category",
          []);
         (py "SELECT record_id_bank, transaction_date, currency_date, account, description, amount, currency, category FROM processed_records  WHERE category = %s AND description ILIKE %s ORDER BY amount asc LIMIT %s OFFSET %s",
          [ PStr (py "Food"); PStr (py "%PAY%"); PInt 1; PInt 1 ]);
         (py "SELECT COUNT(*) FROM processed_records WHERE category = %s AND description ILIKE %s",
          [ PStr (py "Food"); PStr (py "%PAY%") ]) ].
Proof. vm_compute. split; reflexivity. Qed.

Lemma total_pages_is_ceiling_witness :
  0 <= 25 /\ 1 <= 10 <= 100
  /\ (total_pages_of 25 10 = ceil_ratio 25 10 /\ total_pages_of 0 10 = 0).
Proof.
  split; [lia|]. split; [lia|].
  apply (total_pages_is_ceiling 25 10); lia.
Defined.

Lemma get_spending_data_example_witness :
  fault_free (sample_store [None; None])
  /\ str_in (py "all") [py "day"; py "week"; py "month"; py "year"] = false
  /\ List.map (fun r => (category r, amount r))
       (processed_records (sample_store [None; None]))
     = [ (Some (py "Food"), Some (-50)); (Some (py "Food"), Some (-30));
         (None, Some 200) ]
  /\ (fst (get_spending_data sample_date_in sample_iso_week (py "all")
             None None None (sample_store [None; None]))
      = Return ([ mkItem (py "Uncategorized") 200; mkItem (py "Food") (-80) ],
                120)
      /\ 120 = fold_right Z.add 0
                 (List.map item_amount
                    [ mkItem (py "Uncategorized") 200;
                      mkItem (py "Food") (-80) ])).
Proof.
  split; [reflexivity|]. split; [reflexivity|]. split; [reflexivity|].
  apply (get_spending_data_example sample_date_in sample_iso_week (py "all")
           (sample_store [None; None])); reflexivity.
Defined.

Lemma mutations_leave_store_on_failure_witness :
  let s := sample_store [None; None; Some (py "deadlock detected")] in
  first_fault 3 (faults s) = Some (py "deadlock detected")
  /\ ((let r := update_categories sample_form s in
       processed_records (snd r) = processed_records s
       /\ unprocessed_records (snd r) = unprocessed_records s
       /\ (forall body, fst r <> Return (body, 200))
       /\ (update_accepted sample_form ->
           fst r
           = Return (py "Error updating categories: "
                     ++ py "deadlock detected", 500)))
      /\ (let r := delete_records sample_form s in
          processed_records (snd r) = processed_records s
          /\ unprocessed_records (snd r) = unprocessed_records s
          /\ (forall body, fst r <> Return (body, 200))
          /\ (delete_accepted sample_form ->
              fst r
              = Return (py "Error deleting records: "
                        ++ py "deadlock detected", 500)))).
Proof.
  split; [reflexivity|].
  apply (mutations_leave_store_on_failure sample_form
           (sample_store [None; None; Some (py "deadlock detected")])
           (py "deadlock detected")).
  reflexivity.
Defined.

Lemma get_category_color_anagram_witness :
  Permutation (py "act") (py "cat")
  /\ get_category_color (py "act") = get_category_color (py "cat").
Proof.
  assert (P : Permutation (py "act") (py "cat")).
  { change (Permutation [97%N; 99%N; 116%N] [99%N; 97%N; 116%N]).
    apply perm_swap. }
  split; [exact P | apply (get_category_color_anagram _ _ P)].
Defined.

Lemma parse_record_ids_join_witness :
  [py "A 1"; py "B"] <> []
  /\ Forall clean_id [py "A 1"; py "B"]
  /\ parse_record_ids (str_join [44%N] [py "A 1"; py "B"])
     = [py "A 1"; py "B"].
Proof.
  assert (NE : [py "A 1"; py "B"] <> []) by discriminate.
  assert (C : Forall clean_id [py "A 1"; py "B"]).
  { repeat constructor; try discriminate;
      try (intros c [= <-]; reflexivity);
      cbn; intuition discriminate. }
  split; [exact NE|]. split; [exact C|].
  apply (parse_record_ids_join _ NE C).
Defined.


Lemma get_spending_data_one_category_witness :
  fault_free (sample_store [])
  /\ fst (get_spending_data sample_date_in sample_iso_week (py "all")
            (Some (70%N :: py "ood")) None None (sample_store []))
     = Return ([mkItem (py "Food") (-80)], -80)
  /\ (([mkItem (py "Food") (-80)] = [] /\ -80 = 0)
      \/ ([mkItem (py "Food") (-80)] = [mkItem (70%N :: py "ood") (-80)]
          /\ exists keep,
               (forall r, keep r = true ->
                          category r = Some (70%N :: py "ood"))
               /\ -80 = amount_total
                          (filter keep (processed_records (sample_store [])))
               /\ filter keep (processed_records (sample_store [])) <> [])).
Proof.
  split; [reflexivity|]. split; [reflexivity|].
  apply (get_spending_data_one_category sample_date_in sample_iso_week
           (py "all") 70%N (py "ood") None None (sample_store [])
           [mkItem (py "Food") (-80)] (-80)); reflexivity.
Defined.


Lemma delete_records_effect_witness :
  fault_free (sample_store [None])
  /\ args_get sample_form (py "record_ids") = Some (65%N :: py ", B ,,C")
  /\ parse_record_ids (65%N :: py ", B ,,C") <> []
  /\ (let s := sample_store [None] in
      let s' := snd (delete_records sample_form s) in
      let named r :=
        In (record_id_bank r) (parse_record_ids (65%N :: py ", B ,,C")) in
      Forall (fun r => ~ named r) (processed_records s')
      /\ (forall r, In r (processed_records s')
                    <-> In r (processed_records s) /\ ~ named r)
      /\ (exists keep,
            processed_records s' = filter keep (processed_records s))
      /\ unprocessed_records s' = unprocessed_records s
      /\ processed_records (snd (delete_records sample_form s'))
         = processed_records s').
Proof.
  split; [reflexivity|]. split; [reflexivity|].
  assert (P : parse_record_ids (65%N :: py ", B ,,C") <> [])
    by (vm_compute; discriminate).
  split; [exact P|].
  apply (delete_records_effect sample_form (sample_store [None])
           65%N (py ", B ,,C")); try reflexivity. exact P.
Defined.


Lemma mutation_failure_after_commit_witness :
  let s :=
    sample_store [None; None; None; None; Some (py "connection lost")] in
  first_fault 4 (faults s) = None
  /\ first_fault 6 (faults s) = Some (py "connection lost")
  /\ args_get sample_form (py "record_ids") = Some (65%N :: py ", B ,,C")
  /\ parse_record_ids (65%N :: py ", B ,,C") <> []
  /\ ((fst (delete_records sample_form s)
       = Return (py "Error deleting records: " ++ py "connection lost", 500)
       /\ processed_records (snd (delete_records sample_form s))
          = filter
              (fun r =>
                 negb (str_in (record_id_bank r)
                         (parse_record_ids (65%N :: py ", B ,,C"))))
              (processed_records s))
      /\ (forall (d : N) (new_category : pystr),
            args_get sample_form (py "new_category")
            = Some (d :: new_category) ->
            fst (update_categories sample_form s)
            = Return (py "Error updating categories: "
                      ++ py "connection lost", 500)
            /\ processed_records (snd (update_categories sample_form s))
               = List.map
                   (recategorize (d :: new_category)
                      (parse_record_ids (65%N :: py ", B ,,C")))
                   (processed_records s))).
Proof.
  cbv zeta.
  split; [reflexivity|]. split; [reflexivity|]. split; [reflexivity|].
  assert (P : parse_record_ids (65%N :: py ", B ,,C") <> [])
    by (vm_compute; discriminate).
  split; [exact P|].
  apply (mutation_failure_after_commit sample_form
           (sample_store
              [None; None; None; None; Some (py "connection lost")])
           (py "connection lost") 65%N (py ", B ,,C"));
    try reflexivity. exact P.
Defined.

Lemma pages_partition_the_list_witness :
  1 <= 3
  /\ (let l := [10; 20; 30; 40; 50; 60; 70] in
      let total_pages := total_pages_of (Z.of_nat (List.length l)) 3 in
      flat_map (fun page => slice l ((Z.of_nat page - 1) * 3) 3)
        (seq 1 (Z.to_nat total_pages))
      = l
      /\ forall page, total_pages < page ->
                      slice l ((page - 1) * 3) 3 = []).
Proof.
  split; [lia|].
  apply (pages_partition_the_list [10; 20; 30; 40; 50; 60; 70] 3). lia.
Defined.

